(** * weather-alert: forecast analysis, severity filter and notification

    A shallow embedding of [weather_alert/weather_service.py] and
    [weather_alert/alert_system.py].

    Python values that reach the code from the decoded JSON forecast are
    modelled by [Py.pyval]; exceptions by the error monad [Py.result];
    logging and the HTTPS request by an explicit trace of [event]s.
    Python [str] is modelled by [string] holding the UTF-8 bytes of the text;
    [lower] and [capitalize] act on the ASCII letters (code points above
    U+007F are left as they are).  [float] is IEEE binary64 ([PrimFloat]). *)

From Stdlib Require Import ZArith List String Ascii Bool Lia.
From Stdlib Require Import DecimalString.
From Stdlib Require Import PrimFloat SpecFloat FloatOps.
Import ListNotations.
Open Scope string_scope.
Open Scope Z_scope.

(* ================================================================== *)
(** * Python values, exceptions and the operations the code uses *)

Module Py.

Inductive exn : Type :=
| KeyError (key : string)
| TypeError
| AttributeError
| OverflowError.

Inductive result (A : Type) : Type :=
| Ok (a : A)
| Raise (e : exn).
Arguments Ok {A} a.
Arguments Raise {A} e.

Definition bind {A B : Type} (m : result A) (k : A -> result B) : result B :=
  match m with
  | Ok a => k a
  | Raise e => Raise e
  end.

Inductive pyval : Type :=
| PNone
| PBool (b : bool)
| PInt (z : Z)
| PFloat (f : float)
| PStr (s : string)
| PList (l : list pyval)
| PDict (d : list (string * pyval)).

(** ** Strings *)

Definition lower_char (c : ascii) : ascii :=
  let n := nat_of_ascii c in
  if andb (Nat.leb 65 n) (Nat.leb n 90) then ascii_of_nat (n + 32) else c.

Definition upper_char (c : ascii) : ascii :=
  let n := nat_of_ascii c in
  if andb (Nat.leb 97 n) (Nat.leb n 122) then ascii_of_nat (n - 32) else c.

(** [str.lower()] *)
Fixpoint str_lower (s : string) : string :=
  match s with
  | EmptyString => EmptyString
  | String c r => String (lower_char c) (str_lower r)
  end.

(** [str.capitalize()] on ASCII text: the first character upper-cased, the
    rest lower-cased.  Python also maps the case of characters above
    U+007F; this byte-wise model leaves them as they are, so what is proved
    of it is stated for ASCII text. *)
Definition str_capitalize (s : string) : string :=
  match s with
  | EmptyString => EmptyString
  | String c r => String (upper_char c) (str_lower r)
  end.

(** [needle in hay] on two [str]: substring search. *)
Fixpoint str_in (needle hay : string) : bool :=
  if String.prefix needle hay then true
  else match hay with
       | EmptyString => false
       | String _ r => str_in needle r
       end.

(** [sep.join(parts)] *)
Fixpoint str_join (sep : string) (parts : list string) : string :=
  match parts with
  | [] => EmptyString
  | [p] => p
  | p :: ps => p ++ sep ++ str_join sep ps
  end.

(** [str(z)] for an [int]. *)
Definition str_of_int (z : Z) : string :=
  NilZero.string_of_int (Z.to_int z).

(** ** Numbers *)

Definition Z_of_bool (b : bool) : Z := if b then 1 else 0.

(** Python compares a [float] with an [int] exactly; [None] stands for an
    unordered pair (the float is a NaN). *)
Definition float_compare_int (f : float) (k : Z) : option comparison :=
  match Prim2SF f with
  | S754_nan => None
  | S754_zero _ => Some (0 ?= k)
  | S754_infinity s => Some (if s then Lt else Gt)
  | S754_finite s m e =>
      let v := if s then Z.neg m else Z.pos m in
      if 0 <=? e then Some (v * 2 ^ e ?= k)
      else Some (v ?= k * 2 ^ (- e))
  end.

(** [v > k] for an [int] [k] *)
Definition py_gt (v : pyval) (k : Z) : result bool :=
  match v with
  | PInt z => Ok (k <? z)
  | PBool b => Ok (k <? Z_of_bool b)
  | PFloat f => Ok (match float_compare_int f k with
                    | Some Gt => true
                    | _ => false
                    end)
  | _ => Raise TypeError
  end.

(** [v < k] for an [int] [k] *)
Definition py_lt (v : pyval) (k : Z) : result bool :=
  match v with
  | PInt z => Ok (z <? k)
  | PBool b => Ok (Z_of_bool b <? k)
  | PFloat f => Ok (match float_compare_int f k with
                    | Some Lt => true
                    | _ => false
                    end)
  | _ => Raise TypeError
  end.

(** [float(z)]: round to nearest even, [OverflowError] beyond the range. *)
Definition float_of_int (z : Z) : result float :=
  match binary_normalize prec emax z 0 false with
  | S754_infinity _ => Raise OverflowError
  | sf => Ok (SF2Prim sf)
  end.

(** [v * c] for a [float] constant [c] *)
Definition py_mul_float (v : pyval) (c : float) : result pyval :=
  match v with
  | PInt z => bind (float_of_int z) (fun f => Ok (PFloat (PrimFloat.mul f c)))
  | PBool b => bind (float_of_int (Z_of_bool b))
                    (fun f => Ok (PFloat (PrimFloat.mul f c)))
  | PFloat f => Ok (PFloat (PrimFloat.mul f c))
  | _ => Raise TypeError
  end.

(** ** Containers *)

Fixpoint dict_lookup (k : string) (d : list (string * pyval)) : option pyval :=
  match d with
  | [] => None
  | (k', v) :: r => if String.eqb k k' then Some v else dict_lookup k r
  end.

(** [bool(v)] *)
Definition py_truthy (v : pyval) : bool :=
  match v with
  | PNone => false
  | PBool b => b
  | PInt z => negb (z =? 0)
  | PFloat f => negb (PrimFloat.eqb f PrimFloat.zero)
  | PStr s => negb (String.eqb s "")
  | PList l => match l with [] => false | _ => true end
  | PDict d => match d with [] => false | _ => true end
  end.

(** [v[k]] for a [str] key [k] *)
Definition py_getitem (v : pyval) (k : string) : result pyval :=
  match v with
  | PDict d => match dict_lookup k d with
               | Some x => Ok x
               | None => Raise (KeyError k)
               end
  | _ => Raise TypeError
  end.

Definition is_str (k : string) (v : pyval) : bool :=
  match v with
  | PStr s => String.eqb k s
  | _ => false
  end.

(** [k in v] for a [str] [k] *)
Definition py_contains (k : string) (v : pyval) : result bool :=
  match v with
  | PDict d => Ok (match dict_lookup k d with Some _ => true | None => false end)
  | PList l => Ok (existsb (is_str k) l)
  | PStr s => Ok (str_in k s)
  | _ => Raise TypeError
  end.

Fixpoint chars (s : string) : list pyval :=
  match s with
  | EmptyString => []
  | String c r => PStr (String c EmptyString) :: chars r
  end.

(** the items a [for] loop over [v] visits *)
Definition py_iter (v : pyval) : result (list pyval) :=
  match v with
  | PList l => Ok l
  | PDict d => Ok (map (fun kv => PStr (fst kv)) d)
  | PStr s => Ok (chars s)
  | _ => Raise TypeError
  end.

(** [v.get(k, default)] *)
Definition py_get (v : pyval) (k : string) (default : pyval) : result pyval :=
  match v with
  | PDict d => Ok (match dict_lookup k d with
                   | Some x => x
                   | None => default
                   end)
  | _ => Raise AttributeError
  end.

(** [v.lower()] *)
Definition py_lower (v : pyval) : result string :=
  match v with
  | PStr s => Ok (str_lower s)
  | _ => Raise AttributeError
  end.

Section Format.
(** [repr] of floats and of containers is not modelled: it is a parameter
    of the development. *)
Variable py_repr : pyval -> string.

(** [f"{v}"] *)
Definition py_format (v : pyval) : string :=
  match v with
  | PStr s => s
  | PInt z => str_of_int z
  | PBool true => "True"
  | PBool false => "False"
  | PNone => "None"
  | _ => py_repr v
  end.
End Format.

End Py.

Import Py.

Notation "x <- m ;; k" := (bind m (fun x => k))
  (at level 61, m at next level, right associativity).

(* ================================================================== *)
(** * Logging and the outbound HTTPS request as a trace *)

Inductive log_level : Type := INFO | WARNING | ERROR.

Record http_request : Type := {
  req_host : string;
  req_method : string;
  req_path : string;
  req_body : string;
  req_headers : list (string * string)
}.

Inductive event : Type :=
| Log (logger : string) (level : log_level) (msg : string)
| HttpsRequest (req : http_request).

(** What the notification service does with a request: the connection
    raises, or a response with a status code arrives. *)
Inductive net_outcome : Type :=
| NetRaises (msg : string)
| NetResponds (status : Z).

(* ================================================================== *)
(** * weather_service.py *)

Record WeatherCondition : Type := {
  type : string;
  severity : string;
  description : string;
  value : pyval;
  unit : string
}.

Module WeatherService.

(** [self.thresholds] *)
Record thresholds_t : Type := {
  temperature_extreme_high : Z;
  temperature_extreme_low : Z;
  temperature_warning_high : Z;
  temperature_warning_low : Z;
  wind_severe : Z;
  wind_warning : Z;
  heavy_rain_3h : Z;
  heavy_rain_6h : Z;
  snow_3h : Z;
  snow_6h : Z;
  severe_conditions : list string
}.

(** the values [__init__] sets *)
Definition thresholds : thresholds_t := {|
  temperature_extreme_high := 40;
  temperature_extreme_low := -15;
  temperature_warning_high := 35;
  temperature_warning_low := -10;
  wind_severe := 75;
  wind_warning := 50;
  heavy_rain_3h := 50;
  heavy_rain_6h := 80;
  snow_3h := 20;
  snow_6h := 40;
  severe_conditions :=
    ["thunderstorm"; "hurricane"; "tornado"; "cyclone"; "typhoon"; "blizzard"]
|}.

(** the literal [3.6] *)
Definition ms_to_kmh : float := 0x1.ccccccccccccdp+1%float.

Definition degrees_celsius : string := "°C".

(** [l.append(x)] *)
Definition append {A : Type} (l : list A) (x : A) : list A := (l ++ [x])%list.

Section Analyze.
Variable py_repr : pyval -> string.
Variable th : thresholds_t.

(** lines 109-130: temperature analysis *)
Definition temperature_analysis (entry : pyval)
    (dangerous_conditions : list WeatherCondition)
  : result (list WeatherCondition) :=
  main <- py_getitem entry "main" ;;
  temp <- py_getitem main "temp" ;;
  hot <- py_gt temp (temperature_extreme_high th) ;;
  if hot then
    Ok (append dangerous_conditions
        {| type := "temperature"; severity := "extreme";
            description := "Extreme Heat"; value := temp;
            unit := degrees_celsius |})
  else
    cold <- py_lt temp (temperature_extreme_low th) ;;
    if cold then
      Ok (append dangerous_conditions
        {| type := "temperature"; severity := "extreme";
              description := "Extreme Cold"; value := temp;
              unit := degrees_celsius |})
    else Ok dangerous_conditions.

(** lines 132-143: wind speed analysis *)
Definition wind_analysis (entry : pyval)
    (dangerous_conditions : list WeatherCondition)
  : result (list WeatherCondition) :=
  wind <- py_getitem entry "wind" ;;
  speed <- py_getitem wind "speed" ;;
  wind_speed <- py_mul_float speed ms_to_kmh ;;
  windy <- py_gt wind_speed (wind_severe th) ;;
  if windy then
    Ok (append dangerous_conditions
        {| type := "wind"; severity := "severe";
            description := "High Winds"; value := wind_speed;
            unit := "km/h" |})
  else Ok dangerous_conditions.

(** lines 145-157: precipitation checks *)
Definition precipitation_checks (entry : pyval)
    (dangerous_conditions : list WeatherCondition)
  : result (list WeatherCondition) :=
  has_rain <- py_contains "rain" entry ;;
  if has_rain then
    rain <- py_getitem entry "rain" ;;
    has_3h <- py_contains "3h" rain ;;
    if has_3h then
      rain' <- py_getitem entry "rain" ;;
      rain_volume <- py_getitem rain' "3h" ;;
      heavy <- py_gt rain_volume (heavy_rain_3h th) ;;
      if heavy then
        Ok (append dangerous_conditions
        {| type := "precipitation"; severity := "heavy";
                description := "Heavy Rain"; value := rain_volume;
                unit := "mm" |})
      else Ok dangerous_conditions
    else Ok dangerous_conditions
  else Ok dangerous_conditions.

(** [any(condition in weather["main"].lower() for condition in ...)]:
    the generator evaluates [weather["main"].lower()] once per keyword
    it reaches. *)
Fixpoint any_severe (keywords : list string) (weather : pyval)
  : result bool :=
  match keywords with
  | [] => Ok false
  | condition :: rest =>
      main <- py_getitem weather "main" ;;
      lowered <- py_lower main ;;
      if str_in condition lowered then Ok true
      else any_severe rest weather
  end.

(** lines 160-173: the loop over the weather tags *)
Fixpoint severe_weather_loop (tags : list pyval)
    (dangerous_conditions : list WeatherCondition)
  : result (list WeatherCondition) :=
  match tags with
  | [] => Ok dangerous_conditions
  | weather :: rest =>
      hit <- any_severe (severe_conditions th) weather ;;
      if hit then
        d <- py_getitem weather "description" ;;
        severe_weather_loop rest
          (append dangerous_conditions
        {| type := "weather"; severity := "severe";
               description := "Severe Weather: " ++ py_format py_repr d;
               value := PInt 0; unit := "" |})
      else severe_weather_loop rest dangerous_conditions
  end.

Definition severe_weather_conditions (entry : pyval)
    (dangerous_conditions : list WeatherCondition)
  : result (list WeatherCondition) :=
  tags <- py_get entry "weather" (PList []) ;;
  items <- py_iter tags ;;
  severe_weather_loop items dangerous_conditions.

(** the body of the loop over the entries, lines 109-173 *)
Definition analyze_entry (entry : pyval)
    (dangerous_conditions : list WeatherCondition)
  : result (list WeatherCondition) :=
  dc1 <- temperature_analysis entry dangerous_conditions ;;
  dc2 <- wind_analysis entry dc1 ;;
  dc3 <- precipitation_checks entry dc2 ;;
  severe_weather_conditions entry dc3.

(** [for entry in forecast["list"]] *)
Fixpoint analyze_entries (entries : list pyval)
    (dangerous_conditions : list WeatherCondition)
  : result (list WeatherCondition) :=
  match entries with
  | [] => Ok dangerous_conditions
  | entry :: rest =>
      dc <- analyze_entry entry dangerous_conditions ;;
      analyze_entries rest dc
  end.

Definition invalid_forecast : event :=
  Log "WeatherService" WARNING "Invalid forecast data".

(** [analyze_forecast]: the log records written and the value returned or
    the exception raised. *)
Definition analyze_forecast (forecast : pyval)
  : list event * result (list WeatherCondition) :=
  if negb (py_truthy forecast) then ([invalid_forecast], Ok [])
  else
    match py_contains "list" forecast with
    | Raise e => ([], Raise e)
    | Ok false => ([invalid_forecast], Ok [])
    | Ok true =>
        ([], lst <- py_getitem forecast "list" ;;
             entries <- py_iter lst ;;
             analyze_entries entries [])
    end.
End Analyze.

End WeatherService.

(* ================================================================== *)
(** * alert_system.py *)

Module AlertSystem.

(** the configuration [__init__] stores *)
Record t : Type := {
  pushover_user_key : string;
  pushover_app_token : string;
  notification_threshold : string
}.

(** [self.severity_levels] *)
Definition severity_levels : list (string * Z) :=
  [("info", 0); ("warning", 1); ("severe", 2); ("extreme", 3)].

(** [self.severity_levels.get(k, 0)] *)
Fixpoint levels_get (levels : list (string * Z)) (k : string) (default : Z) : Z :=
  match levels with
  | [] => default
  | (k', n) :: rest => if String.eqb k k' then n else levels_get rest k default
  end.

Definition glyph_alert : string := "âš ï¸".
Definition glyph_temperature : string := "ðŸŒ¡ï¸".
Definition glyph_wind : string := "ðŸ’¨".
Definition glyph_precipitation : string := "ðŸŒ§ï¸".
Definition glyph_other : string := "âš¡".

Definition newline : string := String (ascii_of_nat 10) EmptyString.

Definition no_conditions : string :=
  "No significant weather conditions detected.".

Definition header : string := glyph_alert ++ " Weather Alert:" ++ newline.

(** [urllib.parse.quote_plus] on the UTF-8 bytes of a [str] *)
Definition hex_digit (n : nat) : ascii :=
  ascii_of_nat (if Nat.ltb n 10 then 48 + n else 55 + n).

Definition unreserved (c : ascii) : bool :=
  let n := nat_of_ascii c in
  (Nat.leb 65 n && Nat.leb n 90) || (Nat.leb 97 n && Nat.leb n 122)
  || (Nat.leb 48 n && Nat.leb n 57)
  || Ascii.eqb c "_" || Ascii.eqb c "." || Ascii.eqb c "-" || Ascii.eqb c "~".

Fixpoint quote_plus (s : string) : string :=
  match s with
  | EmptyString => EmptyString
  | String c r =>
      if Ascii.eqb c " " then String "+" (quote_plus r)
      else if unreserved c then String c (quote_plus r)
      else
        let n := nat_of_ascii c in
        String "%" (String (hex_digit (Nat.div n 16))
                      (String (hex_digit (Nat.modulo n 16)) (quote_plus r)))
  end.

(** [urllib.parse.urlencode] of a dict of [str] *)
Definition urlencode (fields : list (string * string)) : string :=
  str_join "&" (map (fun kv => quote_plus (fst kv) ++ "=" ++ quote_plus (snd kv))
                    fields).

Section Alert.
Variable py_repr : pyval -> string.
Variable self : t.

(** one iteration of the loop of [_format_condition_message] *)
Definition condition_line (condition : WeatherCondition) : string :=
  if String.eqb (type condition) "temperature" then
    glyph_temperature ++ " " ++ str_capitalize (severity condition) ++ " "
      ++ description condition ++ ": "
      ++ py_format py_repr (value condition) ++ unit condition
  else if String.eqb (type condition) "wind" then
    glyph_wind ++ " " ++ str_capitalize (severity condition) ++ " "
      ++ description condition ++ ": "
      ++ py_format py_repr (value condition) ++ unit condition
  else if String.eqb (type condition) "precipitation" then
    glyph_precipitation ++ " " ++ str_capitalize (severity condition) ++ " "
      ++ description condition ++ ": "
      ++ py_format py_repr (value condition) ++ unit condition
  else
    glyph_other ++ " " ++ str_capitalize (severity condition) ++ " "
      ++ description condition.

Definition _format_condition_message (conditions : list WeatherCondition)
  : string :=
  match conditions with
  | [] => no_conditions
  | _ => str_join newline (header :: map condition_line conditions)
  end.

(** the test of the comprehension of [filter_conditions] *)
Definition meets_threshold (condition : WeatherCondition) : bool :=
  levels_get severity_levels (notification_threshold self) 0
    <=? levels_get severity_levels (severity condition) 0.

Fixpoint filter_conditions (conditions : list WeatherCondition)
  : list WeatherCondition :=
  match conditions with
  | [] => []
  | condition :: rest =>
      if meets_threshold condition
      then condition :: filter_conditions rest
      else filter_conditions rest
  end.

(** [title or "Weather Alert System"] *)
Definition title_or_default (title : option string) : string :=
  match title with
  | Some s => if String.eqb s "" then "Weather Alert System" else s
  | None => "Weather Alert System"
  end.

Definition pushover_request (message : string) (title : option string)
  : http_request := {|
  req_host := "api.pushover.net:443";
  req_method := "POST";
  req_path := "/1/messages.json";
  req_body := urlencode [("token", pushover_app_token self);
                         ("user", pushover_user_key self);
                         ("message", message);
                         ("title", title_or_default title)];
  req_headers := [("Content-type", "application/x-www-form-urlencoded")]
|}.

(** [send_notification]: the trace of what it logs and sends, and the
    value it returns.  [net] is the notification service. *)
Definition send_notification (net : http_request -> net_outcome)
    (conditions : list WeatherCondition) (title : option string)
  : list event * bool :=
  let filtered_conditions := filter_conditions conditions in
  match filtered_conditions with
  | [] =>
      ([Log "AlertSystem" INFO "No conditions meet notification threshold"],
       false)
  | _ =>
      let message := _format_condition_message filtered_conditions in
      let req := pushover_request message title in
      match net req with
      | NetResponds status =>
          if status =? 200 then
            ([HttpsRequest req;
              Log "AlertSystem" INFO "Notification sent successfully"],
             true)
          else
            ([HttpsRequest req;
              Log "AlertSystem" ERROR
                ("Failed to send notification. Status: " ++ str_of_int status)],
             false)
      | NetRaises msg =>
          ([HttpsRequest req;
            Log "AlertSystem" ERROR ("Failed to send notification: " ++ msg)],
           false)
      end
  end.
End Alert.

End AlertSystem.

(* ================================================================== *)
(** * The data model of the forecast payload

    A forecast entry carries a temperature sample, a wind-speed sample in
    metres per second, an optional rain sample for the 3-hour window and
    zero or more weather tags, each with a main category name and a
    description.  [view_entry] reads these out of a decoded JSON entry and
    answers [None] for an entry that is not of this shape. *)

Module Forecast.

Record tag_view : Type := {
  tag_main : string;
  tag_description : pyval
}.

Record entry_view : Type := {
  ev_temp : pyval;
  ev_speed : pyval;
  ev_rain_3h : option pyval;
  ev_tags : list tag_view
}.

Definition is_number (v : pyval) : bool :=
  match v with
  | PInt _ | PFloat _ => true
  | _ => false
  end.

(** a number of which [float] can be taken *)
Definition is_speed (v : pyval) : bool :=
  match py_mul_float v WeatherService.ms_to_kmh with
  | Ok _ => is_number v
  | Raise _ => false
  end.

Definition view_tag (w : pyval) : option tag_view :=
  match w with
  | PDict d =>
      match dict_lookup "main" d, dict_lookup "description" d with
      | Some (PStr m), Some x => Some {| tag_main := m; tag_description := x |}
      | _, _ => None
      end
  | _ => None
  end.

Fixpoint view_tags (l : list pyval) : option (list tag_view) :=
  match l with
  | [] => Some []
  | w :: r =>
      match view_tag w, view_tags r with
      | Some t, Some ts => Some (t :: ts)
      | _, _ => None
      end
  end.

Definition view_rain (d : list (string * pyval)) : option (option pyval) :=
  match dict_lookup "rain" d with
  | None => Some None
  | Some (PDict r) =>
      match dict_lookup "3h" r with
      | None => Some None
      | Some v => if is_number v then Some (Some v) else None
      end
  | Some _ => None
  end.

Definition view_weather (d : list (string * pyval)) : option (list tag_view) :=
  match dict_lookup "weather" d with
  | None => Some []
  | Some (PList l) => view_tags l
  | Some _ => None
  end.

Definition view_sample (d : list (string * pyval)) (group name : string)
  : option pyval :=
  match dict_lookup group d with
  | Some (PDict g) => dict_lookup name g
  | _ => None
  end.

Definition view_entry (entry : pyval) : option entry_view :=
  match entry with
  | PDict d =>
      match view_sample d "main" "temp", view_sample d "wind" "speed",
            view_rain d, view_weather d with
      | Some t, Some s, Some r, Some ts =>
          if is_number t && is_speed s then
            Some {| ev_temp := t; ev_speed := s; ev_rain_3h := r; ev_tags := ts |}
          else None
      | _, _, _, _ => None
      end
  | _ => None
  end.

Fixpoint view_entries (l : list pyval) : option (list entry_view) :=
  match l with
  | [] => Some []
  | e :: r =>
      match view_entry e, view_entries r with
      | Some v, Some vs => Some (v :: vs)
      | _, _ => None
      end
  end.

(** a forecast whose entry sequence is present and well formed *)
Definition view_forecast (forecast : pyval) : option (list entry_view) :=
  match forecast with
  | PDict d =>
      match dict_lookup "list" d with
      | Some (PList l) => view_entries l
      | _ => None
      end
  | _ => None
  end.

(** [v > k] and [v < k] on a number *)
Definition exceeds (v : pyval) (k : Z) : bool :=
  match py_gt v k with Ok b => b | Raise _ => false end.

Definition below (v : pyval) (k : Z) : bool :=
  match py_lt v k with Ok b => b | Raise _ => false end.

(** the wind-speed sample in km/h *)
Definition kmh (speed : pyval) : pyval :=
  match py_mul_float speed WeatherService.ms_to_kmh with
  | Ok v => v
  | Raise _ => PNone
  end.

(** [needle] occurs in [hay] *)
Definition Substring (needle hay : string) : Prop :=
  exists before after, hay = before ++ needle ++ after.

(** the four condition records of the analysis *)
Definition extreme_heat (temp : pyval) : WeatherCondition :=
  {| type := "temperature"; severity := "extreme";
     description := "Extreme Heat"; value := temp;
     unit := WeatherService.degrees_celsius |}.

Definition extreme_cold (temp : pyval) : WeatherCondition :=
  {| type := "temperature"; severity := "extreme";
     description := "Extreme Cold"; value := temp;
     unit := WeatherService.degrees_celsius |}.

Definition high_winds (speed_kmh : pyval) : WeatherCondition :=
  {| type := "wind"; severity := "severe";
     description := "High Winds"; value := speed_kmh; unit := "km/h" |}.

Definition heavy_rain (volume : pyval) : WeatherCondition :=
  {| type := "precipitation"; severity := "heavy";
     description := "Heavy Rain"; value := volume; unit := "mm" |}.

Definition severe_weather (tag_text : string) : WeatherCondition :=
  {| type := "weather"; severity := "severe";
     description := "Severe Weather: " ++ tag_text;
     value := PInt 0; unit := "" |}.

Definition of_type (ty : string) (c : WeatherCondition) : bool :=
  String.eqb (type c) ty.

Section Rules.
Variable py_repr : pyval -> string.
Variable th : WeatherService.thresholds_t.

(** rule 1 *)
Definition temperature_rule (temp : pyval) : list WeatherCondition :=
  if exceeds temp (WeatherService.temperature_extreme_high th)
  then [extreme_heat temp]
  else if below temp (WeatherService.temperature_extreme_low th)
       then [extreme_cold temp]
       else [].

(** rule 2 *)
Definition wind_rule (speed : pyval) : list WeatherCondition :=
  if exceeds (kmh speed) (WeatherService.wind_severe th)
  then [high_winds (kmh speed)]
  else [].

(** rule 3 *)
Definition rain_rule (rain_3h : option pyval) : list WeatherCondition :=
  match rain_3h with
  | Some volume =>
      if exceeds volume (WeatherService.heavy_rain_3h th)
      then [heavy_rain volume]
      else []
  | None => []
  end.

(** rule 4 *)
Definition tag_is_severe (tag : tag_view) : bool :=
  existsb (fun keyword => str_in keyword (str_lower (tag_main tag)))
          (WeatherService.severe_conditions th).

Definition tag_rule (tags : list tag_view) : list WeatherCondition :=
  map (fun tag => severe_weather (py_format py_repr (tag_description tag)))
      (filter tag_is_severe tags).

Definition entry_rules (ev : entry_view) : list WeatherCondition :=
  (temperature_rule (ev_temp ev) ++ wind_rule (ev_speed ev)
     ++ rain_rule (ev_rain_3h ev) ++ tag_rule (ev_tags ev))%list.
End Rules.

End Forecast.

(** * The severity ranking and the filter, as the specification words them *)

Module Ranking.

(** info = 0, warning = 1, severe = 2, extreme = 3; anything else ranks 0 *)
Definition rank (s : string) : Z :=
  if String.eqb s "extreme" then 3
  else if String.eqb s "severe" then 2
  else if String.eqb s "warning" then 1
  else 0.

Definition enumerated (s : string) : Prop :=
  s = "info" \/ s = "warning" \/ s = "severe" \/ s = "extreme".

(** [out] keeps, in the order of [cs], exactly the items that satisfy [keep] *)
Inductive Retains {A : Type} (keep : A -> Prop) : list A -> list A -> Prop :=
| Retains_nil : Retains keep [] []
| Retains_keep c cs out :
    keep c -> Retains keep cs out -> Retains keep (c :: cs) (c :: out)
| Retains_drop c cs out :
    ~ keep c -> Retains keep cs out -> Retains keep (c :: cs) out.

End Ranking.

(** * The message, as the specification words it *)

Module Message.

(** the first letter upper-cased, the remainder unchanged *)
Definition first_upper (s : string) : string :=
  match s with
  | EmptyString => EmptyString
  | String c r => String (upper_char c) r
  end.

(** the first letter upper-cased, the remainder lower-cased *)
Definition capitalized (s : string) : string :=
  match s with
  | EmptyString => EmptyString
  | String c r => String (upper_char c) (str_lower r)
  end.

(** text of ASCII characters only *)
Fixpoint ascii_text (s : string) : bool :=
  match s with
  | EmptyString => true
  | String c r => Nat.ltb (nat_of_ascii c) 128 && ascii_text r
  end.

(** no upper-case letter after the first character *)
Definition rest_is_lower (s : string) : bool :=
  match s with
  | EmptyString => true
  | String _ r => String.eqb (str_lower r) r
  end.

Definition glyph (ty : string) : string :=
  if String.eqb ty "temperature" then AlertSystem.glyph_temperature
  else if String.eqb ty "wind" then AlertSystem.glyph_wind
  else if String.eqb ty "precipitation" then AlertSystem.glyph_precipitation
  else AlertSystem.glyph_other.

Definition shows_value (ty : string) : bool :=
  String.eqb ty "temperature" || String.eqb ty "wind"
  || String.eqb ty "precipitation".

Section Lines.
Variable py_repr : pyval -> string.
(** how the severity label is rendered *)
Variable label : string -> string.

Definition line (c : WeatherCondition) : string :=
  glyph (type c) ++ " " ++ label (severity c) ++ " " ++ description c
    ++ (if shows_value (type c)
        then ": " ++ py_format py_repr (value c) ++ unit c
        else "").

(** the header line, then one line per condition in input order *)
Definition message (cs : list WeatherCondition) : string :=
  str_join AlertSystem.newline (AlertSystem.header :: map line cs).
End Lines.

(** the events of a trace that are requests to the notification service *)
Fixpoint requests (trace : list event) : list http_request :=
  match trace with
  | [] => []
  | HttpsRequest r :: rest => r :: requests rest
  | Log _ _ _ :: rest => requests rest
  end.

End Message.

(** * What the analysis can produce: a type with its severity *)

Module Produced.

Definition analysed (c : WeatherCondition) : Prop :=
  (type c = "temperature" /\ severity c = "extreme")
  \/ (type c = "wind" /\ severity c = "severe")
  \/ (type c = "precipitation" /\ severity c = "heavy")
  \/ (type c = "weather" /\ severity c = "severe").

End Produced.

(* ================================================================== *)
(** * Forecasts and conditions of the test suite *)

Module Samples.

Definition forecast_of (entries : list pyval) : pyval :=
  PDict [("list", PList entries)].

(** [{"main": {"temp": 41}, "wind": {"speed": 5}, "weather": []}] *)
Definition heat_entry : pyval :=
  PDict [("main", PDict [("temp", PInt 41)]);
         ("wind", PDict [("speed", PInt 5)]);
         ("weather", PList [])].

(** [{"main": {"temp": 25}, "wind": {"speed": 25}, "weather": []}] *)
Definition wind_entry : pyval :=
  PDict [("main", PDict [("temp", PInt 25)]);
         ("wind", PDict [("speed", PInt 25)]);
         ("weather", PList [])].

(** an entry with one tag [{"main": "Thunderstorm", "description":
    "Thunderstorm"}] *)
Definition storm_entry : pyval :=
  PDict [("main", PDict [("temp", PInt 25)]);
         ("wind", PDict [("speed", PInt 5)]);
         ("weather", PList [PDict [("main", PStr "Thunderstorm");
                                   ("description", PStr "Thunderstorm")]])].

(** an entry with 60 mm of rain in the 3-hour window *)
Definition rain_entry : pyval :=
  PDict [("main", PDict [("temp", PInt 25)]);
         ("wind", PDict [("speed", PInt 5)]);
         ("rain", PDict [("3h", PInt 60)]);
         ("weather", PList [])].

(** an entry without the temperature and wind samples *)
Definition empty_entry : pyval := PDict [].

(** the alert system of the test suite, threshold "warning" *)
Definition alert_system : AlertSystem.t := {|
  AlertSystem.pushover_user_key := "test_user_key";
  AlertSystem.pushover_app_token := "test_app_token";
  AlertSystem.notification_threshold := "warning"
|}.

(** a rendering of floats and containers, for running the examples *)
Definition plain_repr (v : pyval) : string := "<repr>".

(** a condition whose severity is written in upper case after its first
    letter *)
Definition shouted : WeatherCondition :=
  {| type := "weather"; severity := "sEVERE"; description := "Storm";
     value := PInt 0; unit := "" |}.

End Samples.

(* ================================================================== *)
(** * The rest of weather_service.py and the cycle of main.py

    [fetch_forecast] with its retry decorator, [get_weather_conditions] and
    [check_weather].  The forecast service is an oracle that answers the
    n-th GET; the time the decorator waits between attempts is not
    modelled, only that it waits. *)

Module Driver.

(** what can propagate out of a call at this level *)
Inductive failure : Type :=
| PythonError (e : exn)
| UncaughtError (text : string)
| RetryError.

Inductive outcome (A : Type) : Type :=
| Returns (a : A)
| Raises (f : failure).
Arguments Returns {A} a.
Arguments Raises {A} f.

Definition of_result {A : Type} (r : result A) : outcome A :=
  match r with
  | Ok a => Returns a
  | Raise e => Raises (PythonError e)
  end.

Inductive io : Type :=
| Internal (e : event)
| HttpGet (url : string) (params : list (string * string)) (timeout : Z)
| RetryWait.

(** [response.json()]: the decoded body, or an exception that is or is not
    a [requests.RequestException] *)
Inductive json_outcome : Type :=
| JsonValue (v : pyval)
| JsonRaises (request_exception : bool) (text : string).

(** [requests.get(...)]: an exception that is or is not a
    [requests.RequestException], or a response with its status code, the
    text of the [HTTPError] that [raise_for_status] raises for it, and its
    body *)
Inductive get_outcome : Type :=
| GetRaises (request_exception : bool) (text : string)
| GetResponds (status : Z) (http_error : string) (json : json_outcome).

(** the fields [WeatherService.__init__] stores beside the thresholds *)
Record weather_service : Type := {
  api_key : string;
  location : string
}.

Definition base_url : string :=
  "http://api.openweathermap.org/data/2.5/forecast".

Definition fetching (self : weather_service) : list io :=
  [Internal (Log "WeatherService" INFO
               ("Fetching weather forecast for " ++ location self));
   HttpGet base_url
           [("q", location self); ("appid", api_key self); ("units", "metric")]
           10].

Definition fetch_error (text : string) : io :=
  Internal (Log "WeatherService" ERROR ("Error fetching weather data: " ++ text)).

(** [response.raise_for_status()] raises for a status from 400 to 599 *)
Definition is_error_status (status : Z) : bool :=
  (400 <=? status) && (status <? 600).

(** the body of [fetch_forecast], one call *)
Definition fetch_attempt (self : weather_service) (o : get_outcome)
  : list io * outcome pyval :=
  match o with
  | GetRaises true text => (fetching self ++ [fetch_error text], Returns PNone)%list
  | GetRaises false text => (fetching self, Raises (UncaughtError text))
  | GetResponds status http_error json =>
      if is_error_status status
      then (fetching self ++ [fetch_error http_error], Returns PNone)%list
      else match json with
           | JsonValue v => (fetching self, Returns v)
           | JsonRaises true text =>
               (fetching self ++ [fetch_error text], Returns PNone)%list
           | JsonRaises false text =>
               (fetching self, Raises (UncaughtError text))
           end
  end.

(** [@retry(stop=stop_after_attempt(n), wait=...)]: call again while the
    call raises, [RetryError] once the n-th attempt has raised *)
Fixpoint retry {A : Type} (stop_after_attempt : nat) (attempt : nat)
    (call : nat -> list io * outcome A) : list io * outcome A :=
  match stop_after_attempt with
  | O => ([], Raises RetryError)
  | S more =>
      match call attempt with
      | (t, Returns a) => (t, Returns a)
      | (t, Raises _) =>
          match more with
          | O => (t, Raises RetryError)
          | S _ =>
              let (t', r) := retry more (S attempt) call in
              ((t ++ RetryWait :: t')%list, r)
          end
      end
  end.

Definition fetch_forecast (self : weather_service) (net : nat -> get_outcome)
  : list io * outcome pyval :=
  retry 3 0 (fun attempt => fetch_attempt self (net attempt)).

Section Cycle.
Variable py_repr : pyval -> string.
(** [str(e)] of an exception, not modelled *)
Variable failure_text : failure -> string.
Variable th : WeatherService.thresholds_t.
Variable self : weather_service.
Variable alert_system : AlertSystem.t.

Definition get_weather_conditions (net : nat -> get_outcome)
  : list io * outcome (list WeatherCondition) :=
  match fetch_forecast self net with
  | (t, Raises f) => (t, Raises f)
  | (t, Returns forecast) =>
      if py_truthy forecast then
        let (t', r) := WeatherService.analyze_forecast py_repr th forecast in
        ((t ++ map Internal t')%list, of_result r)
      else (t, Returns [])
  end.

Definition check_error (f : failure) : io :=
  Internal (Log "WeatherAlertApp" ERROR
              ("Error in weather check: " ++ failure_text f)).

(** [check_weather] of [main]: what one cycle logs, fetches and sends *)
Definition check_weather (net : nat -> get_outcome)
    (pushover : http_request -> net_outcome) : list io :=
  match get_weather_conditions net with
  | (t, Raises f) => (t ++ [check_error f])%list
  | (t, Returns conditions) =>
      let (t', _) :=
        AlertSystem.send_notification py_repr alert_system pushover
                                      conditions None in
      (t ++ map Internal t')%list
  end.
End Cycle.

(** the GETs and the notification requests of a trace *)
Fixpoint gets (trace : list io) : nat :=
  match trace with
  | [] => 0
  | HttpGet _ _ _ :: rest => S (gets rest)
  | _ :: rest => gets rest
  end.

Fixpoint posts (trace : list io) : list http_request :=
  match trace with
  | [] => []
  | Internal (HttpsRequest r) :: rest => r :: posts rest
  | _ :: rest => posts rest
  end.

(** the outcome of an attempt settles the fetch: anything but an exception
    that is not a [RequestException] *)
Definition settles (o : get_outcome) : bool :=
  match o with
  | GetRaises caught _ => caught
  | GetResponds status _ json =>
      if is_error_status status then true
      else match json with
           | JsonValue _ => true
           | JsonRaises caught _ => caught
           end
  end.

(** the forecast an attempt hands to the analysis, if any *)
Definition delivers (o : get_outcome) : option pyval :=
  match o with
  | GetResponds status _ (JsonValue v) =>
      if is_error_status status then None else Some v
  | _ => None
  end.

End Driver.

(** * Reading a form-encoded value back *)

Module Encoding.

Definition hex_value (c : ascii) : nat :=
  let n := nat_of_ascii c in
  if Nat.ltb n 58 then n - 48 else n - 55.

(** the inverse of [quote_plus]: "+" is a space, "%XY" the byte XY *)
Fixpoint unquote_plus (s : string) : string :=
  match s with
  | EmptyString => EmptyString
  | String c r =>
      if Ascii.eqb c "+" then String " " (unquote_plus r)
      else if Ascii.eqb c "%" then
        match r with
        | String h (String l r') =>
            String (ascii_of_nat (16 * hex_value h + hex_value l))
                   (unquote_plus r')
        | _ => String c (unquote_plus r)
        end
      else String c (unquote_plus r)
  end.

(** how often a character occurs *)
Fixpoint count (c : ascii) (s : string) : nat :=
  match s with
  | EmptyString => 0
  | String a r => (if Ascii.eqb a c then 1 else 0) + count c r
  end.

(** the characters [quote_plus] can write *)
Definition form_safe (c : ascii) : bool :=
  AlertSystem.unreserved c || Ascii.eqb c "+" || Ascii.eqb c "%".

Fixpoint all_chars (p : ascii -> bool) (s : string) : bool :=
  match s with
  | EmptyString => true
  | String a r => p a && all_chars p r
  end.

End Encoding.

(** * What a reported condition says about its sample *)

Module Justified.

Definition justified (th : WeatherService.thresholds_t) (c : WeatherCondition)
  : Prop :=
  (type c = "temperature" /\ unit c = WeatherService.degrees_celsius
   /\ ((description c = "Extreme Heat"
        /\ Forecast.exceeds (value c)
             (WeatherService.temperature_extreme_high th) = true)
       \/ (description c = "Extreme Cold"
           /\ Forecast.below (value c)
                (WeatherService.temperature_extreme_low th) = true
           /\ Forecast.exceeds (value c)
                (WeatherService.temperature_extreme_high th) = false)))
  \/ (type c = "wind" /\ unit c = "km/h" /\ description c = "High Winds"
      /\ (exists f, value c = PFloat f)
      /\ Forecast.exceeds (value c) (WeatherService.wind_severe th) = true)
  \/ (type c = "precipitation" /\ unit c = "mm"
      /\ description c = "Heavy Rain"
      /\ Forecast.exceeds (value c) (WeatherService.heavy_rain_3h th) = true)
  \/ (type c = "weather" /\ unit c = "" /\ value c = PInt 0
      /\ exists text, description c = "Severe Weather: " ++ text).

End Justified.

(* ================================================================== *)
(** * Properties of the analysis *)

Import WeatherService AlertSystem Forecast Ranking Message Produced Samples.

Lemma bind_assoc {A B C : Type} (m : result A) (f : A -> result B)
    (g : B -> result C) :
  bind (bind m f) g = bind m (fun a => bind (f a) g).
Proof. destruct m; reflexivity. Qed.

Lemma append_app {A : Type} (l : list A) (x : A) : append l x = (l ++ [x])%list.
Proof. reflexivity. Qed.

Lemma dict_lookup_getitem d k v :
  dict_lookup k d = Some v -> py_getitem (PDict d) k = Ok v.
Proof. intros H; simpl; rewrite H; reflexivity. Qed.

Lemma number_gt v k : is_number v = true -> py_gt v k = Ok (exceeds v k).
Proof. destruct v; simpl; try discriminate; reflexivity. Qed.

Lemma number_lt v k : is_number v = true -> py_lt v k = Ok (below v k).
Proof. destruct v; simpl; try discriminate; reflexivity. Qed.

Lemma speed_kmh v :
  is_speed v = true ->
  py_mul_float v ms_to_kmh = Ok (kmh v) /\ is_number (kmh v) = true.
Proof.
  unfold is_speed, kmh.
  destruct (py_mul_float v ms_to_kmh) as [w|] eqn:E; [|discriminate].
  intros Hn; split; [reflexivity|].
  destruct v; simpl in *; try discriminate.
  - destruct (float_of_int z); simpl in E; inversion E; reflexivity.
  - inversion E; reflexivity.
Qed.

Section AnalysisFacts.
Variable py_repr : pyval -> string.
Variable th : thresholds_t.

Ltac view_cases :=
  repeat match goal with
         | H : match ?x with _ => _ end = Some _ |- _ =>
             destruct x eqn:?; try discriminate H
         | H : Some _ = Some _ |- _ => inversion H; clear H; subst
         end.

(** ** Each block of the loop body on a well-formed entry *)

Lemma temperature_analysis_view d t dc :
  view_sample d "main" "temp" = Some t -> is_number t = true ->
  temperature_analysis th (PDict d) dc = Ok (dc ++ temperature_rule th t)%list.
Proof.
  unfold view_sample, temperature_analysis, temperature_rule.
  intros Hs Ht. view_cases.
  erewrite dict_lookup_getitem by eassumption. cbn [bind].
  erewrite dict_lookup_getitem by eassumption. cbn [bind].
  rewrite number_gt by assumption. cbn [bind].
  destruct (exceeds t _); [reflexivity|].
  rewrite number_lt by assumption. cbn [bind].
  destruct (below t _); [reflexivity|].
  now rewrite app_nil_r.
Qed.

Lemma wind_analysis_view d s dc :
  view_sample d "wind" "speed" = Some s -> is_speed s = true ->
  wind_analysis th (PDict d) dc = Ok (dc ++ wind_rule th s)%list.
Proof.
  unfold view_sample, wind_analysis, wind_rule.
  intros Hs Hv. view_cases.
  destruct (speed_kmh _ Hv) as [Hm Hn].
  erewrite dict_lookup_getitem by eassumption. cbn [bind].
  erewrite dict_lookup_getitem by eassumption. cbn [bind].
  rewrite Hm. cbn [bind].
  rewrite number_gt by assumption. cbn [bind].
  destruct (exceeds (kmh s) _); [reflexivity|].
  now rewrite app_nil_r.
Qed.

Lemma precipitation_checks_view d r dc :
  view_rain d = Some r ->
  precipitation_checks th (PDict d) dc = Ok (dc ++ rain_rule th r)%list.
Proof.
  unfold view_rain, precipitation_checks, rain_rule.
  intros Hr. cbn [py_contains bind].
  destruct (dict_lookup "rain" d) as [rain|] eqn:Erain.
  - cbn [py_getitem bind]. rewrite Erain. cbn [bind].
    destruct rain; try discriminate Hr.
    cbn [py_contains bind py_getitem].
    destruct (dict_lookup "3h" d0) as [v|] eqn:E3.
    + destruct (is_number v) eqn:Hn; [|discriminate Hr].
      inversion Hr; subst. cbn [bind].
      rewrite number_gt by assumption. cbn [bind].
      destruct (exceeds v _); [reflexivity|]. now rewrite app_nil_r.
    + inversion Hr; subst. now rewrite app_nil_r.
  - inversion Hr; subst. now rewrite app_nil_r.
Qed.

Lemma any_severe_view w tag keywords :
  view_tag w = Some tag ->
  any_severe keywords w
  = Ok (existsb (fun keyword => str_in keyword (str_lower (tag_main tag)))
                keywords).
Proof.
  unfold view_tag. intros Hw. view_cases. cbn [tag_main].
  induction keywords as [|k ks IH]; [reflexivity|].
  cbn [any_severe existsb].
  erewrite dict_lookup_getitem by eassumption. cbn [bind py_lower].
  destruct (str_in k (str_lower s)); [reflexivity|exact IH].
Qed.

Lemma severe_weather_loop_view l tags dc :
  view_tags l = Some tags ->
  severe_weather_loop py_repr th l dc = Ok (dc ++ tag_rule py_repr th tags)%list.
Proof.
  revert tags dc. induction l as [|w l IH]; intros tags dc Hv.
  - inversion Hv; subst. cbn. now rewrite app_nil_r.
  - cbn [view_tags] in Hv.
    destruct (view_tag w) as [tag|] eqn:Ew; [|discriminate].
    destruct (view_tags l) as [ts|] eqn:El; [|discriminate].
    inversion Hv; subst; clear Hv.
    cbn [severe_weather_loop].
    rewrite (any_severe_view _ _ _ Ew). cbn [bind].
    unfold tag_rule. cbn [filter]. fold (tag_is_severe th tag).
    destruct (tag_is_severe th tag) eqn:Hs.
    + assert (Hd : py_getitem w "description" = Ok (tag_description tag)).
      { unfold view_tag in Ew. view_cases. cbn [tag_description].
        now apply dict_lookup_getitem. }
      rewrite Hd. cbn [bind].
      rewrite (IH ts _ eq_refl). rewrite append_app, <- app_assoc.
      reflexivity.
    + apply IH. reflexivity.
Qed.

Lemma severe_weather_conditions_view d tags dc :
  view_weather d = Some tags ->
  severe_weather_conditions py_repr th (PDict d) dc
  = Ok (dc ++ tag_rule py_repr th tags)%list.
Proof.
  unfold view_weather, severe_weather_conditions. intros Hv.
  cbn [py_get bind].
  destruct (dict_lookup "weather" d) as [w|].
  - destruct w; try discriminate Hv. cbn [py_iter bind].
    now apply severe_weather_loop_view.
  - inversion Hv; subst. cbn. now rewrite app_nil_r.
Qed.

(** the loop body on a well-formed entry appends what the four rules give *)
Lemma analyze_entry_view entry ev dc :
  view_entry entry = Some ev ->
  analyze_entry py_repr th entry dc = Ok (dc ++ entry_rules py_repr th ev)%list.
Proof.
  unfold view_entry. intros Hv.
  destruct entry; try discriminate Hv.
  destruct (view_sample d "main" "temp") as [t|] eqn:Et; [|discriminate].
  destruct (view_sample d "wind" "speed") as [s|] eqn:Es; [|discriminate].
  destruct (view_rain d) as [r|] eqn:Er; [|discriminate].
  destruct (view_weather d) as [ts|] eqn:Ew; [|discriminate].
  destruct (is_number t) eqn:Ht; [|discriminate].
  destruct (is_speed s) eqn:Hs; [|discriminate].
  inversion Hv; subst; clear Hv.
  unfold analyze_entry, entry_rules. cbn [ev_temp ev_speed ev_rain_3h ev_tags].
  rewrite (temperature_analysis_view _ _ _ Et Ht). cbn [bind].
  rewrite (wind_analysis_view _ _ _ Es Hs). cbn [bind].
  rewrite (precipitation_checks_view _ _ _ Er). cbn [bind].
  rewrite (severe_weather_conditions_view _ _ _ Ew).
  now rewrite <- !app_assoc.
Qed.

Lemma analyze_entries_view entries evs dc :
  view_entries entries = Some evs ->
  analyze_entries py_repr th entries dc
  = Ok (dc ++ flat_map (entry_rules py_repr th) evs)%list.
Proof.
  revert evs dc. induction entries as [|e es IH]; intros evs dc Hv.
  - inversion Hv; subst. cbn. now rewrite app_nil_r.
  - cbn [view_entries] in Hv.
    destruct (view_entry e) as [ev|] eqn:Ee; [|discriminate].
    destruct (view_entries es) as [vs|] eqn:Es; [|discriminate].
    inversion Hv; subst; clear Hv.
    cbn [analyze_entries].
    rewrite (analyze_entry_view _ _ _ Ee). cbn [bind].
    rewrite (IH vs _ eq_refl). cbn [flat_map]. now rewrite <- app_assoc.
Qed.

Lemma analyze_forecast_view forecast evs :
  view_forecast forecast = Some evs ->
  analyze_forecast py_repr th forecast
  = ([], Ok (flat_map (entry_rules py_repr th) evs)).
Proof.
  unfold view_forecast, analyze_forecast. intros Hv.
  destruct forecast; try discriminate Hv.
  destruct (dict_lookup "list" d) as [l|] eqn:El; [|discriminate].
  destruct l; try discriminate Hv.
  assert (Ht : py_truthy (PDict d) = true).
  { destruct d; [discriminate El|reflexivity]. }
  rewrite Ht. cbn [negb py_contains]. rewrite El.
  cbn [py_getitem]. rewrite El. cbn [bind py_iter].
  now rewrite (analyze_entries_view _ _ _ Hv).
Qed.
End AnalysisFacts.

(** ** What every run of the analysis produces, well-formed input or not *)

Section Invariant.
Variable py_repr : pyval -> string.
Variable th : thresholds_t.

Ltac run H :=
  repeat match type of H with
         | bind ?m _ = Ok _ =>
             destruct m eqn:?; cbn [bind] in H; [|discriminate H]
         | (if ?b then _ else _) = Ok _ => destruct b eqn:?
         end;
  try (inversion H; subst; clear H).

Ltac grown :=
  first
    [ assumption
    | rewrite append_app; apply Forall_app; split; [assumption|];
      apply Forall_cons; [|apply Forall_nil]; unfold analysed; cbn; tauto ].

Lemma temperature_analysis_analysed entry dc dc' :
  Forall analysed dc -> temperature_analysis th entry dc = Ok dc' ->
  Forall analysed dc'.
Proof. unfold temperature_analysis. intros Hdc H. run H; grown. Qed.

Lemma wind_analysis_analysed entry dc dc' :
  Forall analysed dc -> wind_analysis th entry dc = Ok dc' ->
  Forall analysed dc'.
Proof. unfold wind_analysis. intros Hdc H. run H; grown. Qed.

Lemma precipitation_checks_analysed entry dc dc' :
  Forall analysed dc -> precipitation_checks th entry dc = Ok dc' ->
  Forall analysed dc'.
Proof. unfold precipitation_checks. intros Hdc H. run H; grown. Qed.

Lemma severe_weather_loop_analysed tags dc dc' :
  Forall analysed dc -> severe_weather_loop py_repr th tags dc = Ok dc' ->
  Forall analysed dc'.
Proof.
  revert dc. induction tags as [|w tags IH]; intros dc Hdc H.
  - inversion H; subst; assumption.
  - cbn [severe_weather_loop] in H.
    destruct (any_severe (severe_conditions th) w) as [hit|];
      cbn [bind] in H; [|discriminate].
    destruct hit.
    + destruct (py_getitem w "description"); cbn [bind] in H; [|discriminate].
      apply IH in H; [assumption|]. grown.
    + apply IH in H; assumption.
Qed.

Lemma analyze_entry_analysed entry dc dc' :
  Forall analysed dc -> analyze_entry py_repr th entry dc = Ok dc' ->
  Forall analysed dc'.
Proof.
  unfold analyze_entry, severe_weather_conditions. intros Hdc H.
  destruct (temperature_analysis th entry dc) as [dc1|] eqn:E1;
    cbn [bind] in H; [|discriminate].
  destruct (wind_analysis th entry dc1) as [dc2|] eqn:E2;
    cbn [bind] in H; [|discriminate].
  destruct (precipitation_checks th entry dc2) as [dc3|] eqn:E3;
    cbn [bind] in H; [|discriminate].
  destruct (py_get entry "weather" (PList [])); cbn [bind] in H; [|discriminate].
  destruct (py_iter a); cbn [bind] in H; [|discriminate].
  eapply severe_weather_loop_analysed; [|eassumption].
  eapply precipitation_checks_analysed; [|eassumption].
  eapply wind_analysis_analysed; [|eassumption].
  eapply temperature_analysis_analysed; eassumption.
Qed.

Lemma analyze_entries_analysed entries dc dc' :
  Forall analysed dc -> analyze_entries py_repr th entries dc = Ok dc' ->
  Forall analysed dc'.
Proof.
  revert dc. induction entries as [|e es IH]; intros dc Hdc H.
  - inversion H; subst; assumption.
  - cbn [analyze_entries] in H.
    destruct (analyze_entry py_repr th e dc) as [dc1|] eqn:E;
      cbn [bind] in H; [|discriminate].
    eapply IH; [|eassumption]. eapply analyze_entry_analysed; eassumption.
Qed.

Lemma analyze_forecast_analysed forecast cs :
  snd (analyze_forecast py_repr th forecast) = Ok cs -> Forall analysed cs.
Proof.
  unfold analyze_forecast.
  destruct (negb (py_truthy forecast)).
  - cbn. intros H; inversion H; constructor.
  - destruct (py_contains "list" forecast) as [[|]|]; cbn [snd]; intros H.
    + destruct (py_getitem forecast "list"); cbn [bind] in H; [|discriminate].
      destruct (py_iter a); cbn [bind] in H; [|discriminate].
      eapply analyze_entries_analysed; [constructor|eassumption].
    + inversion H; constructor.
    + discriminate.
Qed.

(** the analysis sends nothing: its trace holds log records only *)
Lemma analyze_forecast_requests forecast :
  requests (fst (analyze_forecast py_repr th forecast)) = [].
Proof.
  unfold analyze_forecast.
  destruct (negb (py_truthy forecast)); [reflexivity|].
  destruct (py_contains "list" forecast) as [[|]|]; reflexivity.
Qed.
End Invariant.

(** ** Substrings *)

Lemma prefix_spec needle hay :
  String.prefix needle hay = true <-> exists after, hay = needle ++ after.
Proof.
  revert hay. induction needle as [|a n IH]; intros hay.
  - split; [intros _; exists hay; reflexivity|]. destruct hay; reflexivity.
  - destruct hay as [|b h]; cbn [String.prefix].
    + split; [discriminate|]. intros [after H]. discriminate H.
    + destruct (ascii_dec a b) as [->|Hne].
      * rewrite IH. split; intros [after H]; exists after.
        -- cbn. now rewrite H.
        -- cbn in H. now inversion H.
      * split; [discriminate|]. intros [after H]. cbn in H.
        inversion H. congruence.
Qed.

Lemma str_in_spec needle hay :
  str_in needle hay = true <-> Substring needle hay.
Proof.
  unfold Substring. induction hay as [|b h IH].
  - cbn [str_in]. destruct (String.prefix needle "") eqn:E.
    + split; [intros _|reflexivity]. apply prefix_spec in E.
      destruct E as [after E]. exists "", after. exact E.
    + split; [discriminate|]. intros (before & after & H).
      destruct before; cbn in H.
      * assert (String.prefix needle "" = true)
          by (apply prefix_spec; eexists; exact H).
        congruence.
      * discriminate H.
  - cbn [str_in]. destruct (String.prefix needle (String b h)) eqn:E.
    + split; [intros _|reflexivity]. apply prefix_spec in E.
      destruct E as [after E]. exists "", after. exact E.
    + rewrite IH. split.
      * intros (before & after & H). exists (String b before), after.
        cbn. now rewrite H.
      * intros (before & after & H). destruct before as [|b' before]; cbn in H.
        -- assert (String.prefix needle (String b h) = true)
             by (apply prefix_spec; eexists; exact H).
           congruence.
        -- inversion H. exists before, after. reflexivity.
Qed.

(** ** [filter] keeps, in order, exactly what its test accepts *)

Lemma filter_Retains {A : Type} (f : A -> bool) (keep : A -> Prop) l :
  (forall x, f x = true <-> keep x) -> Retains keep l (filter f l).
Proof.
  intros Hf. induction l as [|x l IH]; cbn [filter]; [constructor|].
  destruct (f x) eqn:E.
  - apply Retains_keep; [now apply Hf|exact IH].
  - apply Retains_drop; [|exact IH]. intros Hk. apply Hf in Hk. congruence.
Qed.

(** ** The conditions of one type among those of an entry *)

Section ByType.
Variable py_repr : pyval -> string.
Variable th : thresholds_t.

Lemma tag_rule_types ty tags :
  filter (of_type ty) (tag_rule py_repr th tags)
  = if String.eqb "weather" ty then tag_rule py_repr th tags else [].
Proof.
  unfold tag_rule.
  induction (filter (tag_is_severe th) tags) as [|t ts IH]; cbn [map filter].
  - now destruct (String.eqb "weather" ty).
  - unfold of_type at 1. cbn [type severe_weather]. rewrite IH.
    now destruct (String.eqb "weather" ty).
Qed.

Ltac by_rules ev :=
  destruct (exceeds (ev_temp ev) (temperature_extreme_high th));
  destruct (below (ev_temp ev) (temperature_extreme_low th));
  destruct (exceeds (kmh (ev_speed ev)) (wind_severe th));
  destruct (ev_rain_3h ev) as [v|];
  try destruct (exceeds v (heavy_rain_3h th)); reflexivity.

Lemma temperatures_of_entry ev :
  filter (of_type "temperature") (entry_rules py_repr th ev)
  = temperature_rule th (ev_temp ev).
Proof.
  unfold entry_rules. rewrite !filter_app, tag_rule_types.
  unfold temperature_rule, wind_rule, rain_rule.
  by_rules ev.
Qed.

Lemma winds_of_entry ev :
  filter (of_type "wind") (entry_rules py_repr th ev)
  = wind_rule th (ev_speed ev).
Proof.
  unfold entry_rules. rewrite !filter_app, tag_rule_types.
  unfold temperature_rule, wind_rule, rain_rule.
  by_rules ev.
Qed.

Lemma weathers_of_entry ev :
  filter (of_type "weather") (entry_rules py_repr th ev)
  = tag_rule py_repr th (ev_tags ev).
Proof.
  unfold entry_rules. rewrite !filter_app, tag_rule_types.
  unfold temperature_rule, wind_rule, rain_rule.
  by_rules ev.
Qed.

Lemma tag_is_severe_spec tag :
  tag_is_severe th tag = true
  <-> exists keyword, In keyword (severe_conditions th)
                      /\ Substring keyword (str_lower (tag_main tag)).
Proof.
  unfold tag_is_severe. rewrite existsb_exists.
  split; intros (k & Hin & Hk); exists k; split; try assumption;
    now apply str_in_spec.
Qed.
End ByType.

(* ================================================================== *)
(** * The claims about the analysis *)

(** C1, as the code has it: the analysis of a forecast whose only entry has
    60 mm of rain in the 3-hour window returns one condition, of severity
    "heavy", which is none of the four enumerated levels info, warning,
    severe, extreme and has no entry in the ranking table. *)
Theorem heavy_rain_severity_unranked (py_repr : pyval -> string) :
  snd (analyze_forecast py_repr thresholds (forecast_of [rain_entry]))
  = Ok [heavy_rain (PInt 60)]
  /\ severity (heavy_rain (PInt 60)) = "heavy"
  /\ ~ enumerated (severity (heavy_rain (PInt 60)))
  /\ ~ In (severity (heavy_rain (PInt 60))) (map fst severity_levels).
Proof.
  split; [reflexivity|]. split; [reflexivity|]. split.
  - unfold enumerated. cbn. intros [H|[H|[H|H]]]; discriminate H.
  - cbn. intros [H|[H|[H|[H|[]]]]]; discriminate H.
Qed.

(** C5, the counterexample: on a forecast whose entry sequence holds an
    entry without the temperature sample, the analysis raises KeyError. *)
Lemma analyze_forecast_raises_KeyError :
  snd (analyze_forecast plain_repr thresholds (forecast_of [empty_entry]))
  = Raise (KeyError "main").
Proof. reflexivity. Qed.

(** C5, amended: the analysis sends no request (it only logs); on an absent
    forecast or a forecast without the entry sequence it logs a warning and
    returns the empty sequence; on a forecast whose entries are all well
    formed it raises nothing and returns what the four rules give, entry by
    entry. *)
Theorem analyze_forecast_total_on_well_formed
    (py_repr : pyval -> string) (th : thresholds_t) (forecast : pyval) :
  requests (fst (analyze_forecast py_repr th forecast)) = []
  /\ (forecast = PNone
      \/ (exists d, forecast = PDict d /\ dict_lookup "list" d = None) ->
      analyze_forecast py_repr th forecast = ([invalid_forecast], Ok []))
  /\ (forall evs, view_forecast forecast = Some evs ->
      analyze_forecast py_repr th forecast
      = ([], Ok (flat_map (entry_rules py_repr th) evs))).
Proof.
  split; [apply analyze_forecast_requests|]. split.
  - intros [->|(d & -> & Hd)]; [reflexivity|].
    unfold analyze_forecast. destruct d as [|kv d]; [reflexivity|].
    cbn [py_truthy negb py_contains]. rewrite Hd. reflexivity.
  - apply analyze_forecast_view.
Qed.

(** the two well-formed entries of the test suite, heat and rain *)
Lemma analyze_forecast_total_on_well_formed_witness :
  analyze_forecast plain_repr thresholds (forecast_of [heat_entry; rain_entry])
  = ([], Ok (flat_map (entry_rules plain_repr thresholds)
               [ {| ev_temp := PInt 41; ev_speed := PInt 5;
                    ev_rain_3h := None; ev_tags := [] |};
                 {| ev_temp := PInt 25; ev_speed := PInt 5;
                    ev_rain_3h := Some (PInt 60); ev_tags := [] |} ])).
Proof.
  exact (proj2 (proj2 (analyze_forecast_total_on_well_formed
                         plain_repr thresholds
                         (forecast_of [heat_entry; rain_entry])))
               _ eq_refl).
Defined.

(** C6: on every well-formed entry the loop body returns, and the
    temperature conditions among what it returns are: Extreme Heat with the
    sample and "°C" when the sample is above extreme-high; otherwise Extreme
    Cold when it is below extreme-low; otherwise none; so at most one.  With
    extreme-high 40, the entry with temp 41 yields exactly the condition
    (temperature, extreme, "Extreme Heat", 41, "°C"). *)
Theorem temperature_rule_per_entry
    (py_repr : pyval -> string) (th : thresholds_t) :
  (forall entry ev, view_entry entry = Some ev ->
     exists cs, analyze_entry py_repr th entry [] = Ok cs /\
       let t := ev_temp ev in
       let temps := filter (of_type "temperature") cs in
       (exceeds t (temperature_extreme_high th) = true ->
        temps = [extreme_heat t]) /\
       (exceeds t (temperature_extreme_high th) = false ->
        below t (temperature_extreme_low th) = true ->
        temps = [extreme_cold t]) /\
       (exceeds t (temperature_extreme_high th) = false ->
        below t (temperature_extreme_low th) = false ->
        temps = []) /\
       (List.length temps <= 1)%nat)
  /\ temperature_extreme_high thresholds = 40
  /\ analyze_forecast py_repr thresholds (forecast_of [heat_entry])
     = ([], Ok [ {| type := "temperature"; severity := "extreme";
                    description := "Extreme Heat"; value := PInt 41;
                    unit := degrees_celsius |} ]).
Proof.
  split; [|split; reflexivity].
  intros entry ev Hv. eexists. split; [apply analyze_entry_view; exact Hv|].
  cbn [app]. rewrite temperatures_of_entry. unfold temperature_rule. cbn zeta.
  destruct (exceeds (ev_temp ev) (temperature_extreme_high th));
    destruct (below (ev_temp ev) (temperature_extreme_low th));
    repeat split; intros; try discriminate; try reflexivity; cbn; lia.
Qed.

(** the entry with temp 41 under the thresholds of [__init__] *)
Lemma temperature_rule_per_entry_witness :
  exists cs, analyze_entry plain_repr thresholds heat_entry [] = Ok cs /\
    filter (of_type "temperature") cs = [extreme_heat (PInt 41)].
Proof.
  destruct (proj1 (temperature_rule_per_entry plain_repr thresholds)
              heat_entry _ eq_refl) as (cs & Hcs & Hhot & _).
  exists cs. split; [exact Hcs|]. apply Hhot. reflexivity.
Defined.

(** C7: on every well-formed entry the loop body returns; the wind-speed
    sample times 3.6 is the converted value; the wind conditions among what
    is returned are High Winds (severe, "km/h") with the converted value
    when that value is above the severe wind threshold, and none otherwise.
    The threshold is 75, and the entry with wind speed 25 yields exactly
    the condition (wind, severe, "High Winds", 90, "km/h"). *)
Theorem wind_rule_per_entry (py_repr : pyval -> string) (th : thresholds_t) :
  (forall entry ev, view_entry entry = Some ev ->
     exists cs, analyze_entry py_repr th entry [] = Ok cs /\
       py_mul_float (ev_speed ev) ms_to_kmh = Ok (kmh (ev_speed ev)) /\
       let converted := kmh (ev_speed ev) in
       let winds := filter (of_type "wind") cs in
       (exceeds converted (wind_severe th) = true ->
        winds = [ {| type := "wind"; severity := "severe";
                     description := "High Winds"; value := converted;
                     unit := "km/h" |} ]) /\
       (exceeds converted (wind_severe th) = false -> winds = []))
  /\ (forall f, kmh (PFloat f) = PFloat (PrimFloat.mul f ms_to_kmh))
  /\ wind_severe thresholds = 75
  /\ analyze_forecast py_repr thresholds (forecast_of [wind_entry])
     = ([], Ok [ {| type := "wind"; severity := "severe";
                    description := "High Winds"; value := PFloat 90;
                    unit := "km/h" |} ]).
Proof.
  split; [|repeat split; reflexivity].
  intros entry ev Hv. eexists. split; [apply analyze_entry_view; exact Hv|].
  assert (Hs : is_speed (ev_speed ev) = true).
  { unfold view_entry in Hv. destruct entry; try discriminate.
    destruct (view_sample d "main" "temp"); [|discriminate].
    destruct (view_sample d "wind" "speed"); [|discriminate].
    destruct (view_rain d); [|discriminate].
    destruct (view_weather d); [|discriminate].
    destruct (is_number p); [|discriminate].
    destruct (is_speed p0) eqn:E; [|discriminate].
    inversion Hv; subst. exact E. }
  split; [apply (speed_kmh _ Hs)|].
  cbn [app]. rewrite winds_of_entry. unfold wind_rule. cbn zeta.
  destruct (exceeds (kmh (ev_speed ev)) (wind_severe th));
    split; intros; try discriminate; reflexivity.
Qed.

(** the entry with wind speed 25 under the thresholds of [__init__] *)
Lemma wind_rule_per_entry_witness :
  exists cs, analyze_entry plain_repr thresholds wind_entry [] = Ok cs /\
    filter (of_type "wind") cs = [high_winds (PFloat 90)].
Proof.
  destruct (proj1 (wind_rule_per_entry plain_repr thresholds)
              wind_entry _ eq_refl) as (cs & Hcs & _ & Hwind & _).
  exists cs. split; [exact Hcs|]. apply Hwind. reflexivity.
Defined.

(** C8: on every well-formed entry the loop body returns, and the
    conditions of type "weather" among what it returns are, in the order of
    the tags, one (weather, severe, "Severe Weather: " followed by the tag's
    description, 0, "") for each tag whose main category, lower-cased, has
    one of the severe-condition keywords as a substring, and for no other
    tag.  The entry with the single tag Thunderstorm yields exactly one such
    condition. *)
Theorem severe_weather_rule_per_entry
    (py_repr : pyval -> string) (th : thresholds_t) :
  (forall entry ev, view_entry entry = Some ev ->
     exists cs kept, analyze_entry py_repr th entry [] = Ok cs /\
       Retains (fun tag => exists keyword,
                    In keyword (severe_conditions th)
                    /\ Substring keyword (str_lower (tag_main tag)))
               (ev_tags ev) kept /\
       filter (of_type "weather") cs
       = map (fun tag =>
                {| type := "weather"; severity := "severe";
                   description := "Severe Weather: "
                                  ++ py_format py_repr (tag_description tag);
                   value := PInt 0; unit := "" |})
             kept)
  /\ analyze_forecast py_repr thresholds (forecast_of [storm_entry])
     = ([], Ok [ {| type := "weather"; severity := "severe";
                    description := "Severe Weather: Thunderstorm";
                    value := PInt 0; unit := "" |} ]).
Proof.
  split; [|reflexivity].
  intros entry ev Hv. eexists. exists (filter (tag_is_severe th) (ev_tags ev)).
  split; [apply analyze_entry_view; exact Hv|]. split.
  - apply filter_Retains. apply tag_is_severe_spec.
  - cbn [app]. now rewrite weathers_of_entry.
Qed.

(** the entry with the single tag Thunderstorm *)
Lemma severe_weather_rule_per_entry_witness :
  exists cs kept,
    analyze_entry plain_repr thresholds storm_entry [] = Ok cs /\
    Retains (fun tag => exists keyword,
                 In keyword (severe_conditions thresholds)
                 /\ Substring keyword (str_lower (tag_main tag)))
            [ {| tag_main := "Thunderstorm";
                 tag_description := PStr "Thunderstorm" |} ] kept /\
    filter (of_type "weather") cs
    = map (fun tag =>
             {| type := "weather"; severity := "severe";
                description := "Severe Weather: "
                               ++ py_format plain_repr (tag_description tag);
                value := PInt 0; unit := "" |})
          kept.
Proof.
  exact (proj1 (severe_weather_rule_per_entry plain_repr thresholds)
               storm_entry _ eq_refl).
Defined.

(* ================================================================== *)
(** * Properties of the alert system *)

Lemma levels_get_rank s : levels_get severity_levels s 0 = rank s.
Proof.
  unfold rank, severity_levels. cbn [levels_get].
  destruct (String.eqb s "info") eqn:Ei.
  - apply String.eqb_eq in Ei. subst. reflexivity.
  - destruct (String.eqb s "warning") eqn:Ew.
    + apply String.eqb_eq in Ew. subst. reflexivity.
    + destruct (String.eqb s "severe") eqn:Es.
      * apply String.eqb_eq in Es. subst. reflexivity.
      * destruct (String.eqb s "extreme"); reflexivity.
Qed.

Lemma rank_of_table s n : In (s, n) severity_levels -> rank s = n.
Proof.
  cbn. intros [H|[H|[H|[H|[]]]]]; inversion H; reflexivity.
Qed.

Lemma rank_unranked s : ~ In s (map fst severity_levels) -> rank s = 0.
Proof.
  cbn. intros H. unfold rank.
  destruct (String.eqb s "extreme") eqn:Ee;
    [apply String.eqb_eq in Ee; subst; exfalso; apply H; auto 6|].
  destruct (String.eqb s "severe") eqn:Es;
    [apply String.eqb_eq in Es; subst; exfalso; apply H; auto 6|].
  destruct (String.eqb s "warning") eqn:Ew;
    [apply String.eqb_eq in Ew; subst; exfalso; apply H; auto 6|].
  reflexivity.
Qed.

Lemma append_empty (s : string) : s ++ "" = s.
Proof. induction s as [|a s IH]; cbn; [reflexivity|now rewrite IH]. Qed.

Lemma append_assoc_right (a b c : string) : (a ++ b) ++ c = a ++ (b ++ c).
Proof. induction a as [|x a IH]; cbn; [reflexivity|now rewrite IH]. Qed.

Section AlertFacts.
Variable py_repr : pyval -> string.
Variable self : AlertSystem.t.

Lemma meets_threshold_spec c :
  meets_threshold self c = true
  <-> rank (notification_threshold self) <= rank (severity c).
Proof.
  unfold meets_threshold. rewrite !levels_get_rank. apply Z.leb_le.
Qed.

Lemma filter_conditions_filter cs :
  filter_conditions self cs = filter (meets_threshold self) cs.
Proof.
  induction cs as [|c cs IH]; [reflexivity|].
  cbn [filter_conditions filter]. now rewrite IH.
Qed.

Lemma condition_line_spec c :
  condition_line py_repr c = line py_repr str_capitalize c.
Proof.
  unfold condition_line, line, glyph, shows_value.
  destruct (String.eqb (type c) "temperature"); [reflexivity|].
  destruct (String.eqb (type c) "wind"); [reflexivity|].
  destruct (String.eqb (type c) "precipitation"); [reflexivity|].
  cbn [orb]. now rewrite append_empty.
Qed.

Lemma requests_send_notification net cs title :
  requests (fst (send_notification py_repr self net cs title))
  = match filter_conditions self cs with
    | [] => []
    | kept => [pushover_request self
                 (_format_condition_message py_repr kept) title]
    end.
Proof.
  unfold send_notification.
  destruct (filter_conditions self cs) as [|c kept]; [reflexivity|].
  destruct (net _) as [msg|status]; [reflexivity|].
  destruct (status =? 200); reflexivity.
Qed.
End AlertFacts.

(* ================================================================== *)
(** * The claims about the alert system *)

(** C2: the filter keeps, in the order of its input, exactly the conditions
    whose severity ranks at or above the configured threshold, where a
    string ranks as the table says and 0 when the table does not have it. *)
Theorem filter_conditions_retains (self : AlertSystem.t)
    (conditions : list WeatherCondition) :
  Retains (fun c => rank (notification_threshold self) <= rank (severity c))
          conditions (filter_conditions self conditions)
  /\ (forall c, In c (filter_conditions self conditions)
                <-> In c conditions
                    /\ rank (notification_threshold self) <= rank (severity c))
  /\ (forall s, levels_get severity_levels s 0 = rank s)
  /\ (forall s n, In (s, n) severity_levels -> rank s = n)
  /\ (forall s, ~ In s (map fst severity_levels) -> rank s = 0).
Proof.
  split; [|split; [|split; [|split]]].
  - rewrite filter_conditions_filter. apply filter_Retains.
    apply meets_threshold_spec.
  - intros c. rewrite filter_conditions_filter, filter_In.
    now rewrite meets_threshold_spec.
  - apply levels_get_rank.
  - apply rank_of_table.
  - apply rank_unranked.
Qed.

(** C3: when the analysis of a forecast returns and the configured
    threshold ranks at least 1, the filter retains no condition of type
    precipitation, and the only request a notification makes carries the
    message formatted from the retained conditions. *)
Theorem precipitation_never_notified
    (py_repr : pyval -> string) (th : thresholds_t) (self : AlertSystem.t)
    (forecast : pyval) (cs : list WeatherCondition) :
  snd (analyze_forecast py_repr th forecast) = Ok cs ->
  1 <= levels_get severity_levels (notification_threshold self) 0 ->
  (forall c, In c cs -> type c = "precipitation" ->
             severity c = "heavy"
             /\ levels_get severity_levels (severity c) 0 = 0)
  /\ Forall (fun c => type c <> "precipitation") (filter_conditions self cs)
  /\ (forall net title req,
        In req (requests (fst (send_notification py_repr self net cs title))) ->
        req = pushover_request self
                (_format_condition_message py_repr (filter_conditions self cs))
                title).
Proof.
  intros Hcs Hthr.
  assert (Hrain : forall c, In c cs -> type c = "precipitation" ->
                            severity c = "heavy"
                            /\ levels_get severity_levels (severity c) 0 = 0).
  { intros c Hin Hty.
    pose proof (analyze_forecast_analysed _ _ _ _ Hcs) as Hall.
    rewrite Forall_forall in Hall. specialize (Hall c Hin).
    destruct Hall as [[H _]|[[H _]|[[_ H]|[H _]]]];
      try (rewrite Hty in H; discriminate H).
    rewrite H. split; reflexivity. }
  split; [exact Hrain|]. split.
  - apply Forall_forall. intros c Hin Hty.
    rewrite filter_conditions_filter in Hin. apply filter_In in Hin.
    destruct Hin as [Hin Hkeep].
    destruct (Hrain c Hin Hty) as [_ H0].
    unfold meets_threshold in Hkeep. rewrite H0 in Hkeep.
    apply Z.leb_le in Hkeep. lia.
  - intros net title req. rewrite requests_send_notification.
    destruct (filter_conditions self cs); cbn; [tauto|].
    intros [H|[]]. now symmetry.
Qed.

(** the rain entry analysed and filtered at the threshold "warning" *)
Lemma precipitation_never_notified_witness :
  Forall (fun c => type c <> "precipitation")
         (filter_conditions alert_system [heavy_rain (PInt 60)]).
Proof.
  exact (proj1 (proj2 (precipitation_never_notified
                         plain_repr thresholds alert_system
                         (forecast_of [rain_entry]) [heavy_rain (PInt 60)]
                         eq_refl ltac:(cbn; lia)))).
Defined.


(** C9, the counterexample: for a condition of severity "sEVERE" the
    message differs from the one whose label keeps the remainder of the
    severity unchanged: the code writes "Severe", not "SEVERE". *)
Lemma capitalize_lowers_the_remainder :
  _format_condition_message plain_repr [shouted]
  <> message plain_repr first_upper [shouted]
  /\ str_capitalize (severity shouted) = "Severe"
  /\ first_upper (severity shouted) = "SEVERE".
Proof.
  split; [|split; reflexivity].
  intros H. vm_compute in H. discriminate H.
Qed.

(** C9, amended: for a non-empty list of conditions whose severities are
    ASCII text, the message is the header line "Weather Alert:" with its
    glyph, an empty line, then one line per condition in input order, each
    with the glyph of its type, the severity label, the description and,
    for temperature, wind and precipitation only, the value and unit; the
    label is the severity with its first letter upper-cased and the
    remainder lower-cased.  When no severity has an upper-case letter after
    its first character, the label is the first letter upper-cased and the
    remainder unchanged. *)
Theorem format_condition_message_lines (py_repr : pyval -> string)
    (c : WeatherCondition) (cs : list WeatherCondition) :
  Forall (fun x => ascii_text (severity x) = true) (c :: cs) ->
  _format_condition_message py_repr (c :: cs)
  = message py_repr capitalized (c :: cs)
  /\ message py_repr capitalized (c :: cs)
     = glyph_alert ++ " Weather Alert:" ++ newline ++ newline
       ++ str_join newline (map (line py_repr capitalized) (c :: cs))
  /\ (Forall (fun x => rest_is_lower (severity x) = true) (c :: cs) ->
      _format_condition_message py_repr (c :: cs)
      = message py_repr first_upper (c :: cs)).
Proof.
  intros _.
  assert (Hcode : forall l, map (condition_line py_repr) l
                            = map (line py_repr capitalized) l).
  { intros l. apply map_ext. intros x. apply condition_line_spec. }
  split; [|split].
  - unfold _format_condition_message, message. now rewrite Hcode.
  - unfold message, header. cbn [map str_join].
    now rewrite !append_assoc_right.
  - intros Hlow. unfold _format_condition_message, message. f_equal. f_equal.
    rewrite Hcode. apply map_ext_in. intros x Hx.
    rewrite Forall_forall in Hlow. specialize (Hlow x Hx).
    unfold line. f_equal. f_equal. f_equal.
    destruct (severity x) as [|a r]; [reflexivity|].
    cbn in Hlow |- *. apply String.eqb_eq in Hlow. now rewrite Hlow.
Qed.

(** the condition of severity "sEVERE" beside one of severity "extreme" *)
Lemma format_condition_message_lines_witness :
  _format_condition_message plain_repr [shouted; extreme_heat (PInt 41)]
  = message plain_repr capitalized [shouted; extreme_heat (PInt 41)].
Proof.
  apply (format_condition_message_lines plain_repr shouted
           [extreme_heat (PInt 41)]).
  repeat constructor.
Defined.

(** C10: on the empty sequence the message is exactly the sentinel. *)
Theorem format_condition_message_empty (py_repr : pyval -> string) :
  _format_condition_message py_repr []
  = "No significant weather conditions detected.".
Proof. reflexivity. Qed.

(* ================================================================== *)
(** * Further properties of the analysis *)

Import Justified.

Section Accumulator.
Variable py_repr : pyval -> string.
Variable th : thresholds_t.

Ltac unbind :=
  repeat match goal with
         | |- context [if ?b then _ else _] => destruct b; cbn [bind]
         | |- context [bind ?m _] =>
             lazymatch m with
             | context [bind _ _] => fail
             | context [if _ then _ else _] => fail
             | _ => destruct m as [?|?]; cbn [bind]; try reflexivity
             end
         end;
  rewrite ?append_app, ?app_nil_r; try reflexivity.

(** each block only appends to the list it is given *)
Lemma temperature_analysis_acc entry dc :
  temperature_analysis th entry dc
  = (new <- temperature_analysis th entry [] ;; Ok (dc ++ new)%list).
Proof. unfold temperature_analysis. unbind. Qed.

Lemma wind_analysis_acc entry dc :
  wind_analysis th entry dc
  = (new <- wind_analysis th entry [] ;; Ok (dc ++ new)%list).
Proof. unfold wind_analysis. unbind. Qed.

Lemma precipitation_checks_acc entry dc :
  precipitation_checks th entry dc
  = (new <- precipitation_checks th entry [] ;; Ok (dc ++ new)%list).
Proof. unfold precipitation_checks. unbind. Qed.

Lemma severe_weather_loop_acc tags dc :
  severe_weather_loop py_repr th tags dc
  = (new <- severe_weather_loop py_repr th tags [] ;; Ok (dc ++ new)%list).
Proof.
  revert dc. induction tags as [|w tags IH]; intros dc.
  - cbn. now rewrite app_nil_r.
  - cbn [severe_weather_loop].
    destruct (any_severe (severe_conditions th) w) as [[|]|]; cbn [bind];
      [|apply IH|reflexivity].
    destruct (py_getitem w "description") as [d|]; cbn [bind]; [|reflexivity].
    rewrite IH. rewrite (IH (append [] _)). rewrite bind_assoc.
    destruct (severe_weather_loop py_repr th tags []) as [new|]; cbn [bind];
      [|reflexivity].
    rewrite !append_app, <- app_assoc. reflexivity.
Qed.

Lemma severe_weather_conditions_acc entry dc :
  severe_weather_conditions py_repr th entry dc
  = (new <- severe_weather_conditions py_repr th entry [] ;;
     Ok (dc ++ new)%list).
Proof.
  unfold severe_weather_conditions.
  destruct (py_get entry "weather" (PList [])) as [tags|]; cbn [bind];
    [|reflexivity].
  destruct (py_iter tags) as [items|]; cbn [bind]; [|reflexivity].
  apply severe_weather_loop_acc.
Qed.

Lemma analyze_entry_acc entry dc :
  analyze_entry py_repr th entry dc
  = (new <- analyze_entry py_repr th entry [] ;; Ok (dc ++ new)%list).
Proof.
  unfold analyze_entry.
  rewrite (temperature_analysis_acc entry dc).
  destruct (temperature_analysis th entry []) as [n1|]; cbn [bind];
    [|reflexivity].
  rewrite (wind_analysis_acc entry (dc ++ n1)), (wind_analysis_acc entry n1).
  destruct (wind_analysis th entry []) as [n2|]; cbn [bind]; [|reflexivity].
  rewrite (precipitation_checks_acc entry ((dc ++ n1) ++ n2)),
    (precipitation_checks_acc entry (n1 ++ n2)).
  destruct (precipitation_checks th entry []) as [n3|]; cbn [bind];
    [|reflexivity].
  rewrite (severe_weather_conditions_acc entry (((dc ++ n1) ++ n2) ++ n3)),
    (severe_weather_conditions_acc entry ((n1 ++ n2) ++ n3)).
  destruct (severe_weather_conditions py_repr th entry []) as [n4|];
    cbn [bind]; [|reflexivity].
  now rewrite <- !app_assoc.
Qed.

Lemma analyze_entries_acc entries dc :
  analyze_entries py_repr th entries dc
  = (new <- analyze_entries py_repr th entries [] ;; Ok (dc ++ new)%list).
Proof.
  revert dc. induction entries as [|e es IH]; intros dc.
  - cbn. now rewrite app_nil_r.
  - cbn [analyze_entries]. rewrite analyze_entry_acc.
    destruct (analyze_entry py_repr th e []) as [n|]; cbn [bind];
      [|reflexivity].
    rewrite (IH n), (IH (dc ++ n)%list).
    destruct (analyze_entries py_repr th es []) as [m|]; cbn [bind];
      [|reflexivity].
    now rewrite app_assoc.
Qed.

Lemma analyze_entries_app es1 es2 :
  analyze_entries py_repr th (es1 ++ es2) []
  = (a <- analyze_entries py_repr th es1 [] ;;
     b <- analyze_entries py_repr th es2 [] ;;
     Ok (a ++ b)%list).
Proof.
  induction es1 as [|e es1 IH].
  - cbn. destruct (analyze_entries py_repr th es2 []); reflexivity.
  - cbn [app analyze_entries].
    destruct (analyze_entry py_repr th e []) as [n|]; cbn [bind];
      [|reflexivity].
    rewrite analyze_entries_acc, (analyze_entries_acc es1 n), IH.
    destruct (analyze_entries py_repr th es1 []) as [a|]; cbn [bind];
      [|reflexivity].
    destruct (analyze_entries py_repr th es2 []) as [b|]; cbn [bind];
      [|reflexivity].
    now rewrite app_assoc.
Qed.

Lemma analyze_forecast_of entries :
  analyze_forecast py_repr th (forecast_of entries)
  = ([], analyze_entries py_repr th entries []).
Proof. reflexivity. Qed.
End Accumulator.

Lemma analyze_entries_raise py_repr th es1 es2 bad found e :
  analyze_entries py_repr th es1 [] = Ok found ->
  analyze_entry py_repr th bad [] = Raise e ->
  analyze_entries py_repr th (es1 ++ bad :: es2) [] = Raise e.
Proof.
  intros H1 Hbad.
  rewrite analyze_entries_app, H1. cbn [bind analyze_entries].
  now rewrite Hbad.
Qed.

(** X1: the analysis of a forecast whose entry sequence is a concatenation
    is the analysis of the two parts, one after the other: when both
    return, the conditions of the first part followed by those of the
    second; when either raises, that exception. *)
Theorem analyze_forecast_concatenation
    (py_repr : pyval -> string) (th : thresholds_t) (es1 es2 : list pyval) :
  snd (analyze_forecast py_repr th (forecast_of (es1 ++ es2)))
  = (a <- snd (analyze_forecast py_repr th (forecast_of es1)) ;;
     b <- snd (analyze_forecast py_repr th (forecast_of es2)) ;;
     Ok (a ++ b)%list).
Proof. rewrite !analyze_forecast_of. cbn [snd]. apply analyze_entries_app. Qed.

(** X2: one entry on which the loop body raises loses the whole analysis:
    the conditions of the entries before it are not returned, whatever
    follows it. *)
Theorem analyze_forecast_all_or_nothing
    (py_repr : pyval -> string) (th : thresholds_t)
    (es1 es2 : list pyval) (bad : pyval) (found : list WeatherCondition)
    (e : exn) :
  snd (analyze_forecast py_repr th (forecast_of es1)) = Ok found ->
  analyze_entry py_repr th bad [] = Raise e ->
  analyze_forecast py_repr th (forecast_of (es1 ++ bad :: es2))
  = ([], Raise e).
Proof.
  rewrite !analyze_forecast_of. cbn [snd]. intros H1 Hbad.
  now rewrite (analyze_entries_raise py_repr th es1 es2 bad found e H1 Hbad).
Qed.

(** the extreme heat of the first entry is lost to the entry after it *)
Lemma analyze_forecast_all_or_nothing_witness :
  analyze_forecast plain_repr thresholds
    (forecast_of ([heat_entry] ++ empty_entry :: [wind_entry]))
  = ([], Raise (KeyError "main")).
Proof.
  exact (analyze_forecast_all_or_nothing plain_repr thresholds
           [heat_entry] [wind_entry] empty_entry
           [extreme_heat (PInt 41)] (KeyError "main") eq_refl eq_refl).
Defined.

(** ** What a reported condition says about its sample *)

Lemma gt_exceeds v k : py_gt v k = Ok true -> exceeds v k = true.
Proof. unfold exceeds. now intros ->. Qed.

Lemma gt_not_exceeds v k : py_gt v k = Ok false -> exceeds v k = false.
Proof. unfold exceeds. now intros ->. Qed.

Lemma lt_below v k : py_lt v k = Ok true -> below v k = true.
Proof. unfold below. now intros ->. Qed.

Lemma mul_float_is_float v c w :
  py_mul_float v c = Ok w -> exists f, w = PFloat f.
Proof.
  destruct v; cbn; try discriminate.
  - destruct (float_of_int (Z_of_bool b)); cbn; [|discriminate].
    intros H; inversion H; eauto.
  - destruct (float_of_int z); cbn; [|discriminate].
    intros H; inversion H; eauto.
  - intros H; inversion H; eauto.
Qed.

Section JustifiedFacts.
Variable py_repr : pyval -> string.
Variable th : thresholds_t.

Ltac run H :=
  repeat match type of H with
         | bind ?m _ = Ok _ =>
             destruct m eqn:?; cbn [bind] in H; [|discriminate H]
         | (if ?b then _ else _) = Ok _ => destruct b eqn:?
         end;
  try (inversion H; subst; clear H).

Ltac one :=
  rewrite append_app; apply Forall_app; split; [assumption|];
  apply Forall_cons; [|apply Forall_nil]; unfold justified; cbn.

Lemma temperature_analysis_justified entry dc dc' :
  Forall (justified th) dc -> temperature_analysis th entry dc = Ok dc' ->
  Forall (justified th) dc'.
Proof.
  unfold temperature_analysis. intros Hdc H. run H; try assumption; one.
  - left. do 2 (split; [reflexivity|]). left.
    split; [reflexivity|]. now apply gt_exceeds.
  - left. do 2 (split; [reflexivity|]). right.
    split; [reflexivity|]. split; [now apply lt_below|].
    now apply gt_not_exceeds.
Qed.

Lemma wind_analysis_justified entry dc dc' :
  Forall (justified th) dc -> wind_analysis th entry dc = Ok dc' ->
  Forall (justified th) dc'.
Proof.
  unfold wind_analysis. intros Hdc H. run H; try assumption; one.
  right. left. do 3 (split; [reflexivity|]).
  split; [eapply mul_float_is_float; eassumption|]. now apply gt_exceeds.
Qed.

Lemma precipitation_checks_justified entry dc dc' :
  Forall (justified th) dc -> precipitation_checks th entry dc = Ok dc' ->
  Forall (justified th) dc'.
Proof.
  unfold precipitation_checks. intros Hdc H. run H; try assumption; one.
  right. right. left. do 3 (split; [reflexivity|]). now apply gt_exceeds.
Qed.

Lemma severe_weather_loop_justified tags dc dc' :
  Forall (justified th) dc ->
  severe_weather_loop py_repr th tags dc = Ok dc' ->
  Forall (justified th) dc'.
Proof.
  revert dc. induction tags as [|w tags IH]; intros dc Hdc H.
  - inversion H; subst; assumption.
  - cbn [severe_weather_loop] in H.
    destruct (any_severe (severe_conditions th) w) as [hit|];
      cbn [bind] in H; [|discriminate].
    destruct hit.
    + destruct (py_getitem w "description"); cbn [bind] in H; [|discriminate].
      apply IH in H; [assumption|]. one.
      right. right. right. do 3 (split; [reflexivity|]). eauto.
    + apply IH in H; assumption.
Qed.

Lemma analyze_entries_justified entries dc dc' :
  Forall (justified th) dc ->
  analyze_entries py_repr th entries dc = Ok dc' ->
  Forall (justified th) dc'.
Proof.
  revert dc. induction entries as [|e es IH]; intros dc Hdc H.
  - inversion H; subst; assumption.
  - cbn [analyze_entries] in H. unfold analyze_entry in H.
    destruct (temperature_analysis th e dc) as [dc1|] eqn:E1;
      cbn [bind] in H; [|discriminate].
    destruct (wind_analysis th e dc1) as [dc2|] eqn:E2;
      cbn [bind] in H; [|discriminate].
    destruct (precipitation_checks th e dc2) as [dc3|] eqn:E3;
      cbn [bind] in H; [|discriminate].
    unfold severe_weather_conditions in H.
    destruct (py_get e "weather" (PList [])); cbn [bind] in H; [|discriminate].
    destruct (py_iter a); cbn [bind] in H; [|discriminate].
    destruct (severe_weather_loop py_repr th a0 dc3) as [dc4|] eqn:E4;
      cbn [bind] in H; [|discriminate].
    eapply IH; [|eassumption].
    eapply severe_weather_loop_justified; [|eassumption].
    eapply precipitation_checks_justified; [|eassumption].
    eapply wind_analysis_justified; [|eassumption].
    eapply temperature_analysis_justified; eassumption.
Qed.
End JustifiedFacts.

(** X3: whenever the analysis returns, for any forecast, every condition it
    reports is backed by its sample: a temperature condition carries "°C"
    and a value above extreme-high (Extreme Heat) or below extreme-low and
    not above extreme-high (Extreme Cold); a wind condition carries "km/h"
    and a float above the severe wind threshold; a precipitation condition
    carries "mm" and a value above the 3-hour heavy-rain threshold; a
    weather condition carries the value 0, no unit and a description that
    starts with "Severe Weather: ". *)
Theorem analyze_forecast_justified
    (py_repr : pyval -> string) (th : thresholds_t) (forecast : pyval)
    (cs : list WeatherCondition) :
  snd (analyze_forecast py_repr th forecast) = Ok cs ->
  Forall (justified th) cs.
Proof.
  unfold analyze_forecast.
  destruct (negb (py_truthy forecast)).
  - cbn. intros H; inversion H; constructor.
  - destruct (py_contains "list" forecast) as [[|]|]; cbn [snd]; intros H.
    + destruct (py_getitem forecast "list"); cbn [bind] in H; [|discriminate].
      destruct (py_iter a); cbn [bind] in H; [|discriminate].
      eapply analyze_entries_justified; [constructor|eassumption].
    + inversion H; constructor.
    + discriminate.
Qed.

(** the wind entry of the test suite *)
Lemma analyze_forecast_justified_witness :
  Forall (justified thresholds) [high_winds (PFloat 90)].
Proof.
  exact (analyze_forecast_justified plain_repr thresholds
           (forecast_of [wind_entry]) [high_winds (PFloat 90)] eq_refl).
Defined.

(** X4: a forecast that is not a dict never yields a condition: the
    analysis returns the empty sequence or raises TypeError. *)
Theorem analyze_forecast_not_a_dict
    (py_repr : pyval -> string) (th : thresholds_t) (forecast : pyval) :
  (forall d, forecast <> PDict d) ->
  snd (analyze_forecast py_repr th forecast) = Ok []
  \/ snd (analyze_forecast py_repr th forecast) = Raise TypeError.
Proof.
  intros Hd. unfold analyze_forecast.
  destruct (negb (py_truthy forecast)); [left; reflexivity|].
  destruct forecast; cbn [py_contains snd]; auto.
  - destruct (str_in "list" s); cbn; auto.
  - destruct (existsb (is_str "list") l); cbn; auto.
  - exfalso. now apply (Hd d).
Qed.

Lemma analyze_forecast_not_a_dict_witness :
  snd (analyze_forecast plain_repr thresholds (PList [PStr "list"])) = Ok []
  \/ snd (analyze_forecast plain_repr thresholds (PList [PStr "list"]))
     = Raise TypeError.
Proof.
  exact (analyze_forecast_not_a_dict plain_repr thresholds
           (PList [PStr "list"]) ltac:(discriminate)).
Defined.

(** ** Samples at the edges *)

Lemma rains_of_entry py_repr th ev :
  filter (of_type "precipitation") (entry_rules py_repr th ev)
  = rain_rule th (ev_rain_3h ev).
Proof.
  unfold entry_rules. rewrite !filter_app, tag_rule_types.
  unfold temperature_rule, wind_rule, rain_rule.
  destruct (exceeds (ev_temp ev) (temperature_extreme_high th));
    destruct (below (ev_temp ev) (temperature_extreme_low th));
    destruct (exceeds (kmh (ev_speed ev)) (wind_severe th));
    destruct (ev_rain_3h ev) as [v|];
    try destruct (exceeds v (heavy_rain_3h th)); reflexivity.
Qed.

Lemma nan_exceeds_nothing k : exceeds (PFloat nan) k = false.
Proof. reflexivity. Qed.

Lemma nan_below_nothing k : below (PFloat nan) k = false.
Proof. reflexivity. Qed.

(** X5: a NaN sample reports nothing, whatever the thresholds: on a
    well-formed entry the loop body returns, without a temperature
    condition when the temperature is NaN, without a wind condition when
    the wind speed is NaN, and without a precipitation condition when the
    3-hour rain volume is NaN. *)
Theorem nan_sample_reports_nothing
    (py_repr : pyval -> string) (th : thresholds_t)
    (entry : pyval) (ev : entry_view) :
  view_entry entry = Some ev ->
  exists cs, analyze_entry py_repr th entry [] = Ok cs
    /\ (ev_temp ev = PFloat nan -> filter (of_type "temperature") cs = [])
    /\ (ev_speed ev = PFloat nan -> filter (of_type "wind") cs = [])
    /\ (ev_rain_3h ev = Some (PFloat nan) ->
        filter (of_type "precipitation") cs = []).
Proof.
  intros Hv. eexists. split; [apply analyze_entry_view; exact Hv|].
  cbn [app]. rewrite temperatures_of_entry, winds_of_entry, rains_of_entry.
  split; [|split].
  - intros ->. unfold temperature_rule.
    now rewrite nan_exceeds_nothing, nan_below_nothing.
  - intros ->. unfold wind_rule.
    change (kmh (PFloat nan)) with (PFloat nan).
    now rewrite nan_exceeds_nothing.
  - intros ->. unfold rain_rule. now rewrite nan_exceeds_nothing.
Qed.

Lemma nan_sample_reports_nothing_witness :
  exists cs,
    analyze_entry plain_repr thresholds
      (PDict [("main", PDict [("temp", PFloat nan)]);
              ("wind", PDict [("speed", PFloat nan)]);
              ("rain", PDict [("3h", PFloat nan)])]) [] = Ok cs
    /\ cs = [].
Proof.
  destruct (nan_sample_reports_nothing plain_repr thresholds
              (PDict [("main", PDict [("temp", PFloat nan)]);
                      ("wind", PDict [("speed", PFloat nan)]);
                      ("rain", PDict [("3h", PFloat nan)])])
              _ eq_refl) as (cs & Hcs & _).
  exists cs. split; [exact Hcs|].
  cbn in Hcs. inversion Hcs. reflexivity.
Defined.




(** ** Keywords in any case *)

Lemma str_lower_app a b : str_lower (a ++ b) = str_lower a ++ str_lower b.
Proof. induction a as [|c a IH]; cbn; [reflexivity|now rewrite IH]. Qed.

Lemma any_severe_main d m keywords :
  dict_lookup "main" d = Some (PStr m) ->
  any_severe keywords (PDict d)
  = Ok (existsb (fun keyword => str_in keyword (str_lower m)) keywords).
Proof.
  intros Hm. induction keywords as [|k ks IH]; [reflexivity|].
  cbn [any_severe existsb py_getitem]. rewrite Hm. cbn [bind py_lower].
  destruct (str_in k (str_lower m)); [reflexivity|exact IH].
Qed.

(** X7: the keyword test ignores case and position: a tag whose main
    category holds, anywhere, a word that lower-cases to one of the
    severe-condition keywords is found severe. *)
Theorem keyword_found_in_any_case (th : thresholds_t)
    (d : list (string * pyval)) (before word after keyword : string) :
  dict_lookup "main" d = Some (PStr (before ++ word ++ after)) ->
  In keyword (severe_conditions th) ->
  str_lower word = keyword ->
  any_severe (severe_conditions th) (PDict d) = Ok true.
Proof.
  intros Hm Hin Hw. rewrite (any_severe_main _ _ _ Hm). f_equal.
  apply existsb_exists. exists keyword. split; [exact Hin|].
  apply str_in_spec. exists (str_lower before), (str_lower after).
  now rewrite !str_lower_app, Hw.
Qed.

Lemma keyword_found_in_any_case_witness :
  any_severe (severe_conditions thresholds)
    (PDict [("main", PStr ("Severe " ++ "TORNADO" ++ " Watch"))]) = Ok true.
Proof.
  exact (keyword_found_in_any_case thresholds
           [("main", PStr ("Severe " ++ "TORNADO" ++ " Watch"))]
           "Severe " "TORNADO" " Watch" "tornado"
           eq_refl ltac:(cbn; tauto) eq_refl).
Defined.

(* ================================================================== *)
(** * Further properties of the filter *)

Lemma rank_nonneg s : 0 <= rank s.
Proof.
  unfold rank.
  destruct (String.eqb s "extreme"); [lia|].
  destruct (String.eqb s "severe"); [lia|].
  destruct (String.eqb s "warning"); lia.
Qed.

Lemma filter_twice {A : Type} (f : A -> bool) l :
  filter f (filter f l) = filter f l.
Proof.
  induction l as [|x l IH]; [reflexivity|]. cbn [filter].
  destruct (f x) eqn:E; [|exact IH]. cbn [filter]. now rewrite E, IH.
Qed.

(** X8: filtering is idempotent and distributes over concatenation, so a
    notification for conditions that were already filtered is the
    notification for the unfiltered ones. *)
Theorem filter_conditions_idempotent
    (py_repr : pyval -> string) (self : AlertSystem.t)
    (net : http_request -> net_outcome) (title : option string)
    (cs cs' : list WeatherCondition) :
  filter_conditions self (filter_conditions self cs) = filter_conditions self cs
  /\ filter_conditions self (cs ++ cs')
     = (filter_conditions self cs ++ filter_conditions self cs')%list
  /\ send_notification py_repr self net (filter_conditions self cs) title
     = send_notification py_repr self net cs title.
Proof.
  assert (Hid : forall l, filter_conditions self (filter_conditions self l)
                          = filter_conditions self l).
  { intros l. rewrite !filter_conditions_filter. apply filter_twice. }
  split; [apply Hid|]. split.
  - rewrite !filter_conditions_filter. apply filter_app.
  - unfold send_notification. now rewrite Hid.
Qed.

(** X9: a threshold that is none of "warning", "severe" and "extreme" (such
    as "info", an unknown word, or "Warning" with a capital) ranks 0 and
    the filter retains every condition. *)
Theorem unranked_threshold_retains_all (self : AlertSystem.t)
    (cs : list WeatherCondition) :
  ~ In (notification_threshold self) ["warning"; "severe"; "extreme"] ->
  filter_conditions self cs = cs.
Proof.
  intros Hthr.
  assert (H0 : rank (notification_threshold self) = 0).
  { unfold rank.
    destruct (String.eqb_spec (notification_threshold self) "extreme") as [E|_];
      [exfalso; apply Hthr; rewrite E; cbn; tauto|].
    destruct (String.eqb_spec (notification_threshold self) "severe") as [E|_];
      [exfalso; apply Hthr; rewrite E; cbn; tauto|].
    destruct (String.eqb_spec (notification_threshold self) "warning") as [E|_];
      [exfalso; apply Hthr; rewrite E; cbn; tauto|].
    reflexivity. }
  induction cs as [|c cs IH]; [reflexivity|].
  cbn [filter_conditions].
  assert (Hc : meets_threshold self c = true).
  { apply meets_threshold_spec. rewrite H0. apply rank_nonneg. }
  now rewrite Hc, IH.
Qed.

Lemma unranked_threshold_retains_all_witness :
  filter_conditions
    {| pushover_user_key := "u"; pushover_app_token := "t";
       notification_threshold := "Warning" |}
    [heavy_rain (PInt 60); extreme_heat (PInt 41)]
  = [heavy_rain (PInt 60); extreme_heat (PInt 41)].
Proof.
  apply (unranked_threshold_retains_all
           {| pushover_user_key := "u"; pushover_app_token := "t";
              notification_threshold := "Warning" |}).
  cbn. intros [H|[H|[H|[]]]]; discriminate H.
Defined.

(** X10: raising the threshold only removes conditions: filtering at a
    higher-ranked threshold what a lower-ranked one retained gives what the
    higher-ranked one retains of the whole input. *)
Theorem filter_conditions_monotone (low high : AlertSystem.t)
    (cs : list WeatherCondition) :
  rank (notification_threshold low) <= rank (notification_threshold high) ->
  filter_conditions high (filter_conditions low cs) = filter_conditions high cs.
Proof.
  intros Hle. induction cs as [|c cs IH]; [reflexivity|].
  cbn [filter_conditions].
  destruct (meets_threshold low c) eqn:El.
  - cbn [filter_conditions]. now rewrite IH.
  - rewrite IH.
    destruct (meets_threshold high c) eqn:Eh; [|reflexivity].
    apply meets_threshold_spec in Eh.
    assert (meets_threshold low c = true)
      by (apply meets_threshold_spec; lia).
    congruence.
Qed.

Lemma filter_conditions_monotone_witness :
  filter_conditions
    {| pushover_user_key := "u"; pushover_app_token := "t";
       notification_threshold := "extreme" |}
    (filter_conditions alert_system
       [heavy_rain (PInt 60); high_winds (PFloat 90); extreme_heat (PInt 41)])
  = filter_conditions
      {| pushover_user_key := "u"; pushover_app_token := "t";
         notification_threshold := "extreme" |}
      [heavy_rain (PInt 60); high_winds (PFloat 90); extreme_heat (PInt 41)].
Proof.
  apply (filter_conditions_monotone alert_system
           {| pushover_user_key := "u"; pushover_app_token := "t";
              notification_threshold := "extreme" |}).
  cbn. lia.
Defined.

(** X11: of what the analysis reports, the thresholds "warning" and
    "severe" drop exactly the precipitation conditions, and the threshold
    "extreme" retains exactly the temperature conditions. *)
Theorem filter_of_analysis
    (py_repr : pyval -> string) (th : thresholds_t) (self : AlertSystem.t)
    (forecast : pyval) (cs : list WeatherCondition) :
  snd (analyze_forecast py_repr th forecast) = Ok cs ->
  (notification_threshold self = "warning"
   \/ notification_threshold self = "severe" ->
   filter_conditions self cs
   = filter (fun c => negb (of_type "precipitation" c)) cs)
  /\ (notification_threshold self = "extreme" ->
      filter_conditions self cs = filter (of_type "temperature") cs).
Proof.
  intros Hcs. apply analyze_forecast_analysed in Hcs.
  split; intros Hthr; induction Hcs as [|c cs Hc _ IH]; try reflexivity;
    cbn [filter_conditions filter]; rewrite IH;
    unfold meets_threshold, of_type;
    destruct Hc as [[Ht Hs]|[[Ht Hs]|[[Ht Hs]|[Ht Hs]]]];
    rewrite Ht, Hs; try (destruct Hthr as [-> | ->]); try rewrite Hthr;
    reflexivity.
Qed.

Lemma filter_of_analysis_witness :
  filter_conditions alert_system [heavy_rain (PInt 60)]
  = filter (fun c => negb (of_type "precipitation" c)) [heavy_rain (PInt 60)].
Proof.
  exact (proj1 (filter_of_analysis plain_repr thresholds alert_system
                  (forecast_of [rain_entry]) [heavy_rain (PInt 60)] eq_refl)
               (or_introl eq_refl)).
Defined.

(* ================================================================== *)
(** * The form encoding of the notification *)

Import Encoding.

Ltac each_byte a := destruct a as [[] [] [] [] [] [] [] []].

Lemma unquote_quote_byte (a : ascii) (r : string) :
  unquote_plus (quote_plus (String a r)) = String a (unquote_plus (quote_plus r)).
Proof. each_byte a; reflexivity. Qed.

Lemma unquote_quote_plus (s : string) : unquote_plus (quote_plus s) = s.
Proof.
  induction s as [|a s IH]; [reflexivity|].
  now rewrite unquote_quote_byte, IH.
Qed.

Lemma quote_byte_form_safe (a : ascii) (r : string) :
  all_chars form_safe (quote_plus (String a r))
  = all_chars form_safe (quote_plus r).
Proof. each_byte a; reflexivity. Qed.

Lemma quote_plus_form_safe (s : string) :
  all_chars form_safe (quote_plus s) = true.
Proof.
  induction s as [|a s IH]; [reflexivity|].
  now rewrite quote_byte_form_safe.
Qed.

Lemma count_app c a b : count c (a ++ b) = (count c a + count c b)%nat.
Proof.
  induction a as [|x a IH]; cbn; [reflexivity|]. rewrite IH. lia.
Qed.

Lemma count_none p c s :
  p c = false -> all_chars p s = true -> count c s = 0%nat.
Proof.
  intros Hc. induction s as [|a s IH]; cbn; [reflexivity|].
  intros H. apply andb_true_iff in H. destruct H as [Ha Hs].
  destruct (Ascii.eqb_spec a c) as [->|_]; [congruence|]. now apply IH.
Qed.

Lemma append_assoc_str (a b c : string) : (a ++ b) ++ c = a ++ (b ++ c).
Proof. induction a as [|x a IH]; cbn; [reflexivity|now rewrite IH]. Qed.

Lemma quote_plus_no_separator (s : string) :
  count "&" (quote_plus s) = 0%nat /\ count "=" (quote_plus s) = 0%nat.
Proof.
  split; apply (count_none form_safe); try reflexivity;
    apply quote_plus_form_safe.
Qed.

(** X12: form encoding loses nothing and cannot be confused: decoding an
    encoded text gives the text back, so two texts with the same encoding
    are equal; and the encoding is written with letters, digits, "_", ".",
    "-", "~", "+" and "%" only. *)
Theorem quote_plus_round_trip :
  (forall s, unquote_plus (quote_plus s) = s)
  /\ (forall s t, quote_plus s = quote_plus t -> s = t)
  /\ (forall s, all_chars form_safe (quote_plus s) = true).
Proof.
  split; [apply unquote_quote_plus|]. split; [|apply quote_plus_form_safe].
  intros s t H. rewrite <- (unquote_quote_plus s), <- (unquote_quote_plus t).
  now rewrite H.
Qed.

(** X13: whatever the keys, the message and the title hold, the body of the
    notification request has exactly the four fields token, user, message
    and title: three "&" and four "=", none of them from a value. *)
Theorem pushover_body_has_four_fields (self : AlertSystem.t)
    (message : string) (title : option string) :
  req_body (pushover_request self message title)
  = "token=" ++ quote_plus (pushover_app_token self)
    ++ "&user=" ++ quote_plus (pushover_user_key self)
    ++ "&message=" ++ quote_plus message
    ++ "&title=" ++ quote_plus (title_or_default title)
  /\ count "&" (req_body (pushover_request self message title)) = 3%nat
  /\ count "=" (req_body (pushover_request self message title)) = 4%nat.
Proof.
  assert (Hbody :
    req_body (pushover_request self message title)
    = "token=" ++ quote_plus (pushover_app_token self)
      ++ "&user=" ++ quote_plus (pushover_user_key self)
      ++ "&message=" ++ quote_plus message
      ++ "&title=" ++ quote_plus (title_or_default title)).
  { unfold pushover_request, urlencode. cbn [req_body map fst snd str_join].
    change (quote_plus "token") with "token".
    change (quote_plus "user") with "user".
    change (quote_plus "message") with "message".
    change (quote_plus "title") with "title".
    rewrite !append_assoc_str. reflexivity. }
  split; [exact Hbody|]. rewrite Hbody.
  destruct (quote_plus_no_separator (pushover_app_token self)) as [A1 E1].
  destruct (quote_plus_no_separator (pushover_user_key self)) as [A2 E2].
  destruct (quote_plus_no_separator message) as [A3 E3].
  destruct (quote_plus_no_separator (title_or_default title)) as [A4 E4].
  split; rewrite !count_app, ?A1, ?A2, ?A3, ?A4, ?E1, ?E2, ?E3, ?E4;
    reflexivity.
Qed.

(** X14: the sentinel of the empty message is never sent: every request a
    notification makes carries the message of a non-empty list of retained
    conditions, which begins with the header and differs from the
    sentinel. *)
Theorem sentinel_never_sent
    (py_repr : pyval -> string) (self : AlertSystem.t)
    (net : http_request -> net_outcome)
    (conditions : list WeatherCondition) (title : option string)
    (req : http_request) :
  In req (requests (fst (send_notification py_repr self net conditions title))) ->
  exists kept,
    kept <> []
    /\ kept = filter_conditions self conditions
    /\ req = pushover_request self (_format_condition_message py_repr kept) title
    /\ _format_condition_message py_repr kept <> no_conditions
    /\ String.prefix header (_format_condition_message py_repr kept) = true.
Proof.
  rewrite requests_send_notification.
  destruct (filter_conditions self conditions) as [|c kept] eqn:E;
    cbn [In]; [tauto|].
  intros [<-|[]]. exists (c :: kept).
  split; [discriminate|]. split; [reflexivity|]. split; [reflexivity|].
  assert (Hp : String.prefix header
                 (_format_condition_message py_repr (c :: kept)) = true).
  { apply prefix_spec. unfold _format_condition_message.
    cbn [map str_join]. eexists. reflexivity. }
  split; [|exact Hp].
  intros Heq. rewrite Heq in Hp. vm_compute in Hp. discriminate Hp.
Qed.

Lemma sentinel_never_sent_witness :
  exists kept,
    kept <> []
    /\ kept = filter_conditions alert_system [extreme_heat (PInt 41)]
    /\ pushover_request alert_system
         (_format_condition_message plain_repr [extreme_heat (PInt 41)]) None
       = pushover_request alert_system
           (_format_condition_message plain_repr kept) None
    /\ _format_condition_message plain_repr kept <> no_conditions
    /\ String.prefix header (_format_condition_message plain_repr kept) = true.
Proof.
  exact (sentinel_never_sent plain_repr alert_system
           (fun _ => NetResponds 200) [extreme_heat (PInt 41)] None _
           (or_introl eq_refl)).
Defined.

(* ================================================================== *)
(** * Fetching, and one cycle of the driver *)

Import Driver.

Lemma gets_app a b : gets (a ++ b) = (gets a + gets b)%nat.
Proof.
  induction a as [|x a IH]; [reflexivity|].
  destruct x; cbn; rewrite IH; reflexivity.
Qed.

Lemma posts_app a b : posts (a ++ b) = (posts a ++ posts b)%list.
Proof.
  induction a as [|x a IH]; [reflexivity|].
  destruct x as [[]| |]; cbn; rewrite IH; reflexivity.
Qed.

Lemma gets_internal t : gets (map Internal t) = 0%nat.
Proof. induction t as [|e t IH]; [reflexivity|exact IH]. Qed.

Lemma posts_internal t : posts (map Internal t) = requests t.
Proof.
  induction t as [|e t IH]; [reflexivity|].
  destruct e; cbn; now rewrite IH.
Qed.

Section FetchFacts.
Variable self : weather_service.

(** an attempt makes one GET; it returns when its outcome settles the fetch
    and raises otherwise *)
Lemma fetch_attempt_cases o :
  (settles o = true
   /\ exists t, fetch_attempt self o
                = (t, Returns (match delivers o with
                               | Some v => v
                               | None => PNone
                               end))
                /\ gets t = 1%nat /\ posts t = [])
  \/ (settles o = false
      /\ delivers o = None
      /\ exists text,
           fetch_attempt self o = (fetching self, Raises (UncaughtError text))).
Proof.
  destruct o as [[|] text|status http_error [v|[|] text]]; cbn;
    try destruct (is_error_status status); cbn; eauto 8.
Qed.

Lemma fetch_forecast_cases net :
  let o0 := net 0%nat in
  let o1 := net 1%nat in
  let o2 := net 2%nat in
  exists t r,
    fetch_forecast self net = (t, r)
    /\ posts t = []
    /\ ((settles o0 = true /\ gets t = 1%nat
         /\ (t, r) = fetch_attempt self o0)
        \/ (settles o0 = false /\ settles o1 = true /\ gets t = 2%nat
            /\ r = snd (fetch_attempt self o1))
        \/ (settles o0 = false /\ settles o1 = false /\ settles o2 = true
            /\ gets t = 3%nat /\ r = snd (fetch_attempt self o2))
        \/ (settles o0 = false /\ settles o1 = false /\ settles o2 = false
            /\ gets t = 3%nat /\ r = Raises RetryError)).
Proof.
  cbn zeta. unfold fetch_forecast. cbn [retry].
  destruct (fetch_attempt_cases (net 0%nat))
    as [(S0 & t0 & E0 & G0 & P0)|(S0 & _ & x0 & E0)]; rewrite E0.
  { eexists _, _. split; [reflexivity|]. auto 8. }
  destruct (fetch_attempt_cases (net 1%nat))
    as [(S1 & t1 & E1 & G1 & P1)|(S1 & _ & x1 & E1)]; rewrite E1.
  { eexists _, _. split; [reflexivity|].
    repeat (rewrite ?posts_app, ?gets_app; cbn). rewrite G1, P1. auto 10. }
  destruct (fetch_attempt_cases (net 2%nat))
    as [(S2 & t2 & E2 & G2 & P2)|(S2 & _ & x2 & E2)]; rewrite E2.
  { eexists _, _. split; [reflexivity|].
    repeat (rewrite ?posts_app, ?gets_app; cbn). rewrite G2, P2. auto 12. }
  eexists _, _. split; [reflexivity|]. cbn. auto 12.
Qed.
Lemma fetch_forecast_posts net : posts (fst (fetch_forecast self net)) = [].
Proof.
  destruct (fetch_forecast_cases net) as (t & r & E & P & _).
  now rewrite E.
Qed.

Lemma fetch_forecast_gets net :
  (1 <= gets (fst (fetch_forecast self net)) <= 3)%nat.
Proof.
  destruct (fetch_forecast_cases net) as (t & r & E & _ & H).
  rewrite E. cbn [fst].
  destruct H as [(_ & G & _)|[(_ & _ & G & _)|[(_ & _ & _ & G & _)
                |(_ & _ & _ & G & _)]]]; lia.
Qed.
End FetchFacts.

(** X15: an exception of the request library is not retried: when the
    first GET raises a RequestException, answers with a status from 400 to
    599, or its body fails to decode with a RequestException, the fetch
    makes that one GET, logs the error and returns None; and when the first
    GET delivers a body, it makes that one GET and returns the body. *)
Theorem fetch_forecast_settled_at_once
    (self : weather_service) (net : nat -> get_outcome) :
  settles (net 0%nat) = true ->
  fetch_forecast self net = fetch_attempt self (net 0%nat)
  /\ gets (fst (fetch_forecast self net)) = 1%nat
  /\ snd (fetch_forecast self net)
     = Returns (match delivers (net 0%nat) with
                | Some v => v
                | None => PNone
                end).
Proof.
  intros Hs. unfold fetch_forecast. cbn [retry].
  destruct (fetch_attempt_cases self (net 0%nat))
    as [(_ & t0 & E0 & G0 & _)|(S0 & _)]; [|congruence].
  rewrite E0. auto.
Qed.

(** the test of the suite: the GET raises a RequestException *)
Lemma fetch_forecast_settled_at_once_witness :
  snd (fetch_forecast {| api_key := "test_api_key"; location := "TestCity" |}
         (fun _ => GetRaises true "Network error"))
  = Returns PNone.
Proof.
  exact (proj2 (proj2 (fetch_forecast_settled_at_once
                         {| api_key := "test_api_key"; location := "TestCity" |}
                         (fun _ => GetRaises true "Network error") eq_refl))).
Defined.

(** X16: the fetch makes at least one and at most three GETs and sends no
    notification; it raises only RetryError, and exactly when each of the
    three attempts raised an exception that is not a RequestException. *)
Theorem fetch_forecast_attempts
    (self : weather_service) (net : nat -> get_outcome) :
  (1 <= gets (fst (fetch_forecast self net)) <= 3)%nat
  /\ posts (fst (fetch_forecast self net)) = []
  /\ (forall f, snd (fetch_forecast self net) = Raises f -> f = RetryError)
  /\ (snd (fetch_forecast self net) = Raises RetryError
      <-> settles (net 0%nat) = false /\ settles (net 1%nat) = false
          /\ settles (net 2%nat) = false).
Proof.
  destruct (fetch_forecast_cases self net) as (t & r & E & P & H).
  rewrite E. cbn [fst snd].
  assert (Hret : forall o, settles o = true ->
                           exists v, snd (fetch_attempt self o) = Returns v).
  { intros o Ho. destruct (fetch_attempt_cases self o)
      as [(_ & t0 & E0 & _)|(S0 & _)]; [|congruence].
    rewrite E0. eexists. reflexivity. }
  destruct H as [(S0 & G & Er)|[(S0 & S1 & G & Er)|[(S0 & S1 & S2 & G & Er)
                |(S0 & S1 & S2 & G & Er)]]].
  - destruct (Hret _ S0) as [v Hv]. rewrite <- Er in Hv. cbn in Hv. subst r.
    repeat split; try lia; try assumption; try discriminate; try congruence.
    intros (H0 & _). congruence.
  - destruct (Hret _ S1) as [v Hv]. rewrite <- Er in Hv. subst r.
    repeat split; try lia; try assumption; try discriminate; try congruence.
    intros (_ & H1 & _). congruence.
  - destruct (Hret _ S2) as [v Hv]. rewrite <- Er in Hv. subst r.
    repeat split; try lia; try assumption; try discriminate; try congruence.
    intros (_ & _ & H2). congruence.
  - subst r. repeat split; try lia; try assumption; congruence.
Qed.

Section CycleFacts.
Variable py_repr : pyval -> string.
Variable failure_text : failure -> string.
Variable th : thresholds_t.
Variable self : weather_service.
Variable alert : AlertSystem.t.
Variable net : nat -> get_outcome.
Variable pushover : http_request -> net_outcome.

(** what [get_weather_conditions] returns, from what the fetch returns *)
Lemma get_weather_conditions_result :
  snd (get_weather_conditions py_repr th self net)
  = match snd (fetch_forecast self net) with
    | Raises f => Raises f
    | Returns forecast =>
        if py_truthy forecast
        then of_result (snd (analyze_forecast py_repr th forecast))
        else Returns []
    end.
Proof.
  unfold get_weather_conditions.
  destruct (fetch_forecast self net) as [t [v|f]]; cbn [snd]; [|reflexivity].
  destruct (py_truthy v); [|reflexivity].
  destruct (analyze_forecast py_repr th v); reflexivity.
Qed.

(** the cycle's trace: the fetch, then what is logged and sent after it *)
Lemma check_weather_trace :
  exists rest,
    check_weather py_repr failure_text th self alert net pushover
    = (fst (fetch_forecast self net) ++ rest)%list
    /\ gets rest = 0%nat
    /\ posts rest
       = match snd (get_weather_conditions py_repr th self net) with
         | Returns cs =>
             requests (fst (send_notification py_repr alert pushover cs None))
         | Raises _ => []
         end.
Proof.
  unfold check_weather, get_weather_conditions.
  destruct (fetch_forecast self net) as [t [v|f]]; cbn [fst snd].
  - destruct (py_truthy v).
    + pose proof (analyze_forecast_requests py_repr th v) as Hreq.
      destruct (analyze_forecast py_repr th v) as [t' [cs|e]];
        cbn [of_result fst snd] in *.
      * destruct (send_notification py_repr alert pushover cs None)
          as [t'' sent].
        exists (map Internal t' ++ map Internal t'')%list.
        rewrite app_assoc, gets_app, posts_app, !gets_internal,
          !posts_internal, Hreq. cbn [fst]. repeat split.
      * exists (map Internal t'
                ++ [check_error failure_text (PythonError e)])%list.
        rewrite app_assoc, gets_app, posts_app, gets_internal, posts_internal,
          Hreq. repeat split.
    + cbn [snd].
      destruct (send_notification py_repr alert pushover [] None)
        as [t'' sent].
      exists (map Internal t''). rewrite gets_internal, posts_internal.
      cbn [fst]. repeat split.
  - exists [check_error failure_text f]. repeat split.
Qed.
End CycleFacts.

(** X17: without a forecast there is no notification: when the fetch gives
    up with RetryError, or returns None or another falsy value, the cycle
    sends nothing and makes no request beyond the GETs of the fetch. *)
Theorem check_weather_without_forecast
    (py_repr : pyval -> string) (failure_text : failure -> string)
    (th : thresholds_t) (self : weather_service) (alert : AlertSystem.t)
    (net : nat -> get_outcome) (pushover : http_request -> net_outcome) :
  (exists f, snd (fetch_forecast self net) = Raises f)
  \/ (exists v, snd (fetch_forecast self net) = Returns v
                /\ py_truthy v = false) ->
  posts (check_weather py_repr failure_text th self alert net pushover) = []
  /\ gets (check_weather py_repr failure_text th self alert net pushover)
     = gets (fst (fetch_forecast self net)).
Proof.
  intros H.
  destruct (check_weather_trace py_repr failure_text th self alert net pushover)
    as (rest & -> & G & P).
  rewrite posts_app, gets_app, G, P, get_weather_conditions_result.
  rewrite (fetch_forecast_posts self net).
  split; [|lia].
  destruct H as [(f & ->)|(v & -> & ->)]; reflexivity.
Qed.

(** the GET raises a RequestException *)
Lemma check_weather_without_forecast_witness :
  posts (check_weather plain_repr (fun _ => "error") thresholds
           {| api_key := "test_api_key"; location := "TestCity" |}
           alert_system (fun _ => GetRaises true "Network error")
           (fun _ => NetResponds 200)) = []
  /\ gets (check_weather plain_repr (fun _ => "error") thresholds
             {| api_key := "test_api_key"; location := "TestCity" |}
             alert_system (fun _ => GetRaises true "Network error")
             (fun _ => NetResponds 200))
     = gets (fst (fetch_forecast
                    {| api_key := "test_api_key"; location := "TestCity" |}
                    (fun _ => GetRaises true "Network error"))).
Proof.
  apply (check_weather_without_forecast plain_repr (fun _ => "error")
           thresholds {| api_key := "test_api_key"; location := "TestCity" |}
           alert_system (fun _ => GetRaises true "Network error")
           (fun _ => NetResponds 200)).
  right. exists PNone. split; reflexivity.
Defined.

(** X18: one malformed entry silences the cycle: when the fetched forecast
    has an entry on which the loop body raises, the cycle logs the error
    and sends no notification, whatever the entries before it would have
    reported. *)
Theorem check_weather_malformed_entry
    (py_repr : pyval -> string) (failure_text : failure -> string)
    (th : thresholds_t) (self : weather_service) (alert : AlertSystem.t)
    (net : nat -> get_outcome) (pushover : http_request -> net_outcome)
    (es1 es2 : list pyval) (bad : pyval) (found : list WeatherCondition)
    (e : exn) :
  snd (fetch_forecast self net) = Returns (forecast_of (es1 ++ bad :: es2)) ->
  snd (analyze_forecast py_repr th (forecast_of es1)) = Ok found ->
  analyze_entry py_repr th bad [] = Raise e ->
  check_weather py_repr failure_text th self alert net pushover
  = (fst (fetch_forecast self net)
     ++ [check_error failure_text (PythonError e)])%list
  /\ posts (check_weather py_repr failure_text th self alert net pushover) = [].
Proof.
  intros Hf H1 Hbad.
  assert (Ha : analyze_forecast py_repr th (forecast_of (es1 ++ bad :: es2))
               = ([], Raise e)).
  { rewrite analyze_forecast_of. rewrite analyze_forecast_of in H1.
    now rewrite (analyze_entries_raise py_repr th es1 es2 bad found e H1 Hbad). }
  assert (Hc : check_weather py_repr failure_text th self alert net pushover
               = (fst (fetch_forecast self net)
                  ++ [check_error failure_text (PythonError e)])%list).
  { unfold check_weather, get_weather_conditions.
    destruct (fetch_forecast self net) as [t r]. cbn [snd fst] in *. subst r.
    change (py_truthy (forecast_of (es1 ++ bad :: es2))) with true.
    cbn iota. rewrite Ha. cbn [map of_result]. now rewrite app_nil_r. }
  split; [exact Hc|]. rewrite Hc, posts_app.
  rewrite (fetch_forecast_posts self net). reflexivity.
Qed.

(** an extreme heat entry followed by an entry without samples *)
Lemma check_weather_malformed_entry_witness :
  posts (check_weather plain_repr (fun _ => "error") thresholds
           {| api_key := "test_api_key"; location := "TestCity" |}
           alert_system
           (fun _ => GetResponds 200 ""
                       (JsonValue (forecast_of ([heat_entry]
                                                ++ empty_entry :: []))))
           (fun _ => NetResponds 200)) = [].
Proof.
  exact (proj2 (check_weather_malformed_entry plain_repr (fun _ => "error")
                  thresholds
                  {| api_key := "test_api_key"; location := "TestCity" |}
                  alert_system
                  (fun _ => GetResponds 200 ""
                              (JsonValue (forecast_of ([heat_entry]
                                                       ++ empty_entry :: []))))
                  (fun _ => NetResponds 200)
                  [heat_entry] [] empty_entry [extreme_heat (PInt 41)]
                  (KeyError "main") eq_refl eq_refl eq_refl)).
Defined.



(** X20: whatever the two services answer, one cycle makes at least one and
    at most three GETs and sends at most one notification. *)
Theorem check_weather_requests_bounded
    (py_repr : pyval -> string) (failure_text : failure -> string)
    (th : thresholds_t) (self : weather_service) (alert : AlertSystem.t)
    (net : nat -> get_outcome) (pushover : http_request -> net_outcome) :
  (1 <= gets (check_weather py_repr failure_text th self alert net pushover)
   <= 3)%nat
  /\ (List.length
        (posts (check_weather py_repr failure_text th self alert net pushover))
      <= 1)%nat.
Proof.
  destruct (check_weather_trace py_repr failure_text th self alert net pushover)
    as (rest & -> & G & P).
  rewrite posts_app, gets_app, G, P.
  pose proof (fetch_forecast_gets self net) as Hg.
  rewrite (fetch_forecast_posts self net).
  split; [lia|]. cbn [app].
  destruct (snd (get_weather_conditions py_repr th self net)) as [cs|f];
    [|cbn; lia].
  rewrite requests_send_notification.
  destruct (filter_conditions alert cs); cbn; lia.
Qed.

(** X21: through the cycle a heavy-rain forecast is never announced at the
    thresholds "warning", "severe" and "extreme": when the analysis of the
    fetched forecast reports precipitation conditions only, the cycle sends
    nothing. *)
Theorem check_weather_rain_only_is_silent
    (py_repr : pyval -> string) (failure_text : failure -> string)
    (th : thresholds_t) (self : weather_service) (alert : AlertSystem.t)
    (net : nat -> get_outcome) (pushover : http_request -> net_outcome)
    (forecast : pyval) (cs : list WeatherCondition) :
  snd (fetch_forecast self net) = Returns forecast ->
  py_truthy forecast = true ->
  snd (analyze_forecast py_repr th forecast) = Ok cs ->
  Forall (fun c => type c = "precipitation") cs ->
  In (notification_threshold alert) ["warning"; "severe"; "extreme"] ->
  posts (check_weather py_repr failure_text th self alert net pushover) = [].
Proof.
  intros Hf Ht Ha Hrain Hthr.
  destruct (check_weather_trace py_repr failure_text th self alert net pushover)
    as (rest & -> & _ & P).
  rewrite posts_app, P, get_weather_conditions_result, Hf, Ht, Ha.
  rewrite (fetch_forecast_posts self net).
  cbn [of_result app]. rewrite requests_send_notification.
  assert (Hk : filter_conditions alert cs = []).
  { apply analyze_forecast_analysed in Ha. clear Hf.
    induction Ha as [|c cs Hc _ IH]; [reflexivity|].
    inversion Hrain as [|c' cs' Hty Hrest]; subst.
    cbn [filter_conditions]. rewrite (IH Hrest).
    assert (Hs : severity c = "heavy").
    { destruct Hc as [[H _]|[[H _]|[[_ H]|[H _]]]];
        try (rewrite Hty in H; discriminate H). exact H. }
    unfold meets_threshold. rewrite Hs.
    destruct Hthr as [<-|[<-|[<-|[]]]]; reflexivity. }
  now rewrite Hk.
Qed.

Lemma check_weather_rain_only_is_silent_witness :
  posts (check_weather plain_repr (fun _ => "error") thresholds
           {| api_key := "test_api_key"; location := "TestCity" |}
           alert_system
           (fun _ => GetResponds 200 ""
                       (JsonValue (forecast_of [rain_entry])))
           (fun _ => NetResponds 200)) = [].
Proof.
  apply (check_weather_rain_only_is_silent plain_repr (fun _ => "error")
           thresholds {| api_key := "test_api_key"; location := "TestCity" |}
           alert_system
           (fun _ => GetResponds 200 ""
                       (JsonValue (forecast_of [rain_entry])))
           (fun _ => NetResponds 200)
           (forecast_of [rain_entry]) [heavy_rain (PInt 60)]
           eq_refl eq_refl eq_refl).
  - repeat constructor.
  - cbn. tauto.
Defined.
